(** * Resume validator: score calibration, skill validation, name extraction
      and batch ranking of [openai_analyzer.py].

    The development embeds the post-processing part of
    [OpenAIResumeAnalyzer]: the code of [analyze_resume] that follows the
    JSON decoding of the model's answer, [extract_candidate_name_from_text]
    and [batch_analyze_resumes].

    Modelling conventions.
    - Scores and ratios are Python floats in the source.  They are modelled
      as exact rationals ([Q]): every finite float is a rational, the
      comparisons are the same, and the rounding of the two arithmetic
      expressions of the source is not modelled.  NaN and the infinities
      are outside the model.
    - Strings are [string]s of 8-bit characters.  The model follows Python
      on code points below 128; larger bytes are treated as caseless
      symbols that are neither letters nor white space.
    - The external service is not modelled: its outcome (the decoded JSON
      object, or a failure) is an input of the embedded functions.  The
      fields of the decoded object have the types that the [ResumeAnalysis]
      data class declares; module [Wire] lifts this for the candidate's
      name, which the code uses outside any [try]. *)

From Stdlib Require Import QArith Qminmax Lqa Lia ZArith.
From Stdlib Require Import List String Ascii Bool.
From Stdlib Require Import Sorting.Sorted Sorting.Permutation.
Import ListNotations.

Local Open Scope Q_scope.

(** ** Score calibration (lines 313-355 of [analyze_resume]) *)

Module Score.

(** Python's [a < b] and [a >= b] on numbers. *)
Definition ltb (a b : Q) : bool := negb (Qle_bool b a).
Definition geb (a b : Q) : bool := Qle_bool b a.

(** The pair [(min_score, max_allowed_score)] selected by the ratio. *)
Definition score_range (skill_match_ratio : Q) : Q * Q :=
  if geb skill_match_ratio 0.9 then (85, 100)
  else if geb skill_match_ratio 0.8 then (75, 90)
  else if geb skill_match_ratio 0.6 then (60, 80)
  else if geb skill_match_ratio 0.4 then (45, 65)
  else if geb skill_match_ratio 0.2 then (15, 45)
  else (5, 25).

Definition min_score (skill_match_ratio : Q) : Q :=
  fst (score_range skill_match_ratio).

Definition max_allowed_score (skill_match_ratio : Q) : Q :=
  snd (score_range skill_match_ratio).

(** [validated_score raw_score skill_match_ratio has_required] is the value
    of the variable [validated_score] when [analyze_resume] builds its
    result; [has_required] is the truth value of
    [required_skills and len(required_skills) > 0].  Python's
    [min(a, b)] returns [a] unless [b < a], which is [Qmin a b]. *)
Definition validated_score
    (raw_score skill_match_ratio : Q) (has_required : bool) : Q :=
  if has_required then
    let min_score := min_score skill_match_ratio in
    let max_allowed_score := max_allowed_score skill_match_ratio in
    if geb skill_match_ratio 0.9 then
      let outstanding_score := 85 + (skill_match_ratio - 0.9) * 150 in
      Qmin outstanding_score 100
    else if ltb skill_match_ratio 0.2 then
      let adjusted_score :=
        min_score + (max_allowed_score - min_score) * 0.3 in
      Qmin raw_score adjusted_score
    else if ltb max_allowed_score raw_score then
      max_allowed_score
    else if ltb raw_score min_score && geb skill_match_ratio 0.8 then
      min_score
    else
      raw_score
  else
    raw_score.

(** The clamp of the specification, [clamp(x, lo, hi)]. *)
Definition clamp (x lo hi : Q) : Q := Qmax lo (Qmin x hi).

End Score.

(** ** Python string operations used by the source *)

Module Text.

Local Open Scope string_scope.

Definition code (c : ascii) : nat := nat_of_ascii c.

(** White space of [str.strip()] and [str.split()]: tab to carriage return,
    the four separators 28..31 and the blank. *)
Definition is_space (c : ascii) : bool :=
  let n := code c in
  ((9 <=? n) && (n <=? 13) || (28 <=? n) && (n <=? 32))%nat.

Definition is_upper_char (c : ascii) : bool :=
  let n := code c in ((65 <=? n) && (n <=? 90))%nat.

Definition is_lower_char (c : ascii) : bool :=
  let n := code c in ((97 <=? n) && (n <=? 122))%nat.

Definition is_alpha_char (c : ascii) : bool :=
  is_upper_char c || is_lower_char c.

Definition lower_char (c : ascii) : ascii :=
  if is_upper_char c then ascii_of_nat (code c + 32) else c.

Definition upper_char (c : ascii) : ascii :=
  if is_lower_char c then ascii_of_nat (code c - 32) else c.

Fixpoint map_chars (f : ascii -> ascii) (s : string) : string :=
  match s with
  | EmptyString => EmptyString
  | String c r => String (f c) (map_chars f r)
  end.

(** [s.lower()] and [s.upper()] for strings of ASCII characters: bytes
    above 127 are left as they are, whereas Python maps some characters
    beyond ASCII to other characters or to several ones. *)
Definition lower (s : string) : string := map_chars lower_char s.
Definition upper (s : string) : string := map_chars upper_char s.

Fixpoint forall_chars (p : ascii -> bool) (s : string) : bool :=
  match s with
  | EmptyString => true
  | String c r => p c && forall_chars p r
  end.

Fixpoint exists_char (p : ascii -> bool) (s : string) : bool :=
  match s with
  | EmptyString => false
  | String c r => p c || exists_char p r
  end.

(** [s.isalpha()]: at least one character, all of them letters. *)
Definition isalpha (s : string) : bool :=
  negb (s =? "") && forall_chars is_alpha_char s.

(** [s.isupper()]: at least one cased character, none of them lower case. *)
Definition isupper (s : string) : bool :=
  exists_char is_upper_char s && negb (exists_char is_lower_char s).

Fixpoint lstrip (s : string) : string :=
  match s with
  | EmptyString => EmptyString
  | String c r => if is_space c then lstrip r else s
  end.

Fixpoint rstrip (s : string) : string :=
  match s with
  | EmptyString => EmptyString
  | String c r =>
      let r' := rstrip r in
      if is_space c && (r' =? "") then EmptyString else String c r'
  end.

(** [s.strip()]. *)
Definition strip (s : string) : string := rstrip (lstrip s).

(** [sub in s]: [sub] occurs in [s] as a contiguous substring. *)
Fixpoint contains (sub s : string) : bool :=
  if prefix sub s then true
  else match s with
       | EmptyString => false
       | String _ r => contains sub r
       end.

(** Cut [s] at every character satisfying [p]; the pieces may be empty and
    there is always at least one. *)
Fixpoint split_at (p : ascii -> bool) (s : string) : list string :=
  match s with
  | EmptyString => [EmptyString]
  | String c r =>
      if p c then EmptyString :: split_at p r
      else match split_at p r with
           | piece :: pieces => String c piece :: pieces
           | [] => [String c EmptyString]
           end
  end.

(** [s.split(sep)] for a one-character separator. *)
Definition split_sep (sep : ascii) (s : string) : list string :=
  split_at (Ascii.eqb sep) s.

(** [s.split()]: the maximal runs of characters that are not white space. *)
Definition split (s : string) : list string :=
  filter (fun w => negb (w =? "")) (split_at is_space s).

(** [s.replace(c, '')] for a one-character [c]. *)
Fixpoint remove_char (c : ascii) (s : string) : string :=
  match s with
  | EmptyString => EmptyString
  | String d r =>
      if Ascii.eqb d c then remove_char c r else String d (remove_char c r)
  end.

(** [sep.join(l)]. *)
Definition join (sep : string) (l : list string) : string := concat sep l.

(** [os.path.basename(p)] (POSIX): what follows the last slash. *)
Definition basename (p : string) : string :=
  last (split_sep "/" p) EmptyString.

(** [p.rfind(c)]: the last index of [c] in [p], or -1. *)
Fixpoint rfind_from (c : ascii) (p : string) (i : Z) (found : Z) : Z :=
  match p with
  | EmptyString => found
  | String d r => rfind_from c r (i + 1)%Z (if Ascii.eqb d c then i else found)
  end.

Definition rfind (c : ascii) (p : string) : Z := rfind_from c p 0%Z (-1)%Z.

(** [p[i:j]] for [0 <= i]. *)
Definition slice (p : string) (i j : Z) : string :=
  substring (Z.to_nat i) (Z.to_nat (j - i)) p.

(** [os.path.splitext(p)[0]] (POSIX): [p] up to its last dot, when that dot
    follows the last slash and some character between them is not a dot. *)
Definition splitext_root (p : string) : string :=
  let sepIndex := rfind "/" p in
  let dotIndex := rfind "." p in
  if (sepIndex <? dotIndex)%Z
     && exists_char (fun d => negb (Ascii.eqb d "."))
                    (slice p (sepIndex + 1) dotIndex)
  then slice p 0 dotIndex
  else p.

End Text.

(** ** Skill validation (lines 274-311 of [analyze_resume]) *)

Module Skills.

Import Text.
Local Open Scope string_scope.

(** The test of the inner loop for one required skill. *)
Definition close_match (skill_lower req_skill_lower : string) : bool :=
  (skill_lower =? req_skill_lower)
  || contains skill_lower req_skill_lower
  || contains req_skill_lower skill_lower.

(** The inner [for req_skill in required_skills] loop with its [break]:
    [Some matched_req_skill] when [is_valid_match] ends up true. *)
Fixpoint matched_req_skill (skill_lower : string)
    (required_skills : list string) : option string :=
  match required_skills with
  | [] => None
  | req_skill :: rest =>
      let req_skill_lower := strip (lower req_skill) in
      if close_match skill_lower req_skill_lower then Some req_skill
      else matched_req_skill skill_lower rest
  end.

(** The outer [for skill in matching_skills] loop; the last argument is the
    list [validated_matching_skills] built so far. *)
Fixpoint validate_loop (matching_skills required_skills : list string)
    (validated_matching_skills : list string) : list string :=
  match matching_skills with
  | [] => validated_matching_skills
  | skill :: rest =>
      let skill_lower := strip (lower skill) in
      match matched_req_skill skill_lower required_skills with
      | Some _ =>
          validate_loop rest required_skills
            (validated_matching_skills ++ [skill])
      | None => validate_loop rest required_skills validated_matching_skills
      end
  end.

(** [required_skills and len(required_skills) > 0]. *)
Definition has_required (required_skills : list string) : bool :=
  match required_skills with [] => false | _ :: _ => true end.

(** Python's [a / b] on lengths. *)
Definition ratio_of (a b : nat) : Q :=
  inject_Z (Z.of_nat a) / inject_Z (Z.of_nat b).

(** The pair [(validated_matching_skills, skill_match_ratio)] computed by
    lines 275-311. *)
Definition validate (matching_skills required_skills : list string)
    : list string * Q :=
  if has_required required_skills then
    let validated_matching_skills :=
      validate_loop matching_skills required_skills [] in
    let actual_matching_count := List.length validated_matching_skills in
    (validated_matching_skills,
     ratio_of actual_matching_count (List.length required_skills))
  else
    (matching_skills, 0).

End Skills.

(** ** The analysis of one resume ([analyze_resume]) *)

Module Analysis.

Local Open Scope string_scope.

Record ResumeAnalysis := {
  candidate_name : string;
  matching_score : Q;
  key_skills : list string;
  matching_skills : list string;
  missing_skills : list string;
  summary : string;
  strengths : list string;
  weaknesses : list string
}.

(** The value stored under ['matching_score'] in the decoded answer: the
    key may be absent, hold a value that [float()] converts, or hold one
    on which [float()] raises. *)
Inductive ScoreField :=
| ScoreMissing
| ScoreNumber (q : Q)
| ScoreInvalid.

(** The decoded answer [analysis_data]; [None] is an absent key. *)
Record AnalysisData := {
  d_candidate_name : option string;
  d_matching_score : ScoreField;
  d_key_skills : option (list string);
  d_matching_skills : option (list string);
  d_missing_skills : option (list string);
  d_summary : option string;
  d_strengths : option (list string);
  d_weaknesses : option (list string)
}.

(** [d.get(key, default)]. *)
Definition get {A} (field : option A) (default : A) : A :=
  match field with Some v => v | None => default end.

(** [float(analysis_data.get('matching_score', 0))]; [None] when it
    raises. *)
Definition float_score (field : ScoreField) : option Q :=
  match field with
  | ScoreMissing => Some 0
  | ScoreNumber q => Some q
  | ScoreInvalid => None
  end.

(** The record returned by the [except] branch. *)
Definition default_analysis : ResumeAnalysis := {|
  candidate_name := "Unknown Candidate";
  matching_score := 0;
  key_skills := [];
  matching_skills := [];
  missing_skills := [];
  summary := "Error occurred during analysis";
  strengths := [];
  weaknesses := []
|}.

(** The body of the [try] block from line 262 on; [None] when an exception
    is raised.  [response] is the outcome of the request and of
    [json.loads]: [None] when either raised. *)
Definition analyze_body (response : option AnalysisData)
    (required_skills : list string) : option ResumeAnalysis :=
  match response with
  | None => None
  | Some analysis_data =>
      match float_score (d_matching_score analysis_data) with
      | None => None
      | Some raw_score =>
          let matching_skills := get (d_matching_skills analysis_data) [] in
          let '(validated_matching_skills, skill_match_ratio) :=
            Skills.validate matching_skills required_skills in
          let validated_score :=
            Score.validated_score raw_score skill_match_ratio
              (Skills.has_required required_skills) in
          Some {|
            candidate_name :=
              get (d_candidate_name analysis_data) "Unknown Candidate";
            matching_score := validated_score;
            key_skills := get (d_key_skills analysis_data) [];
            matching_skills := validated_matching_skills;
            missing_skills := get (d_missing_skills analysis_data) [];
            summary := get (d_summary analysis_data) "";
            strengths := get (d_strengths analysis_data) [];
            weaknesses := get (d_weaknesses analysis_data) []
          |}
      end
  end.

Definition analyze_resume (response : option AnalysisData)
    (required_skills : list string) : ResumeAnalysis :=
  match analyze_body response required_skills with
  | Some analysis => analysis
  | None => default_analysis
  end.

End Analysis.

(** ** Name extraction ([extract_candidate_name_from_text]) *)

Module Names.

Import Text.
Local Open Scope string_scope.

Definition headers : list string :=
  ["RESUME"; "CV"; "CURRICULUM"; "PROFILE"; "OBJECTIVE";
   "SUMMARY"; "EXPERIENCE"; "EDUCATION"; "SKILLS"; "PROFESSIONAL";
   "PYTHON"; "JAVA"; "C++"; "JAVASCRIPT"; "SQL"; "AWS"; "DOCKER"].

Definition separators : list string := [","; ":"; ";"; "|"].

(** [word.replace('.', '').replace(',', '').isalpha() or word.isupper()]. *)
Definition word_ok (word : string) : bool :=
  isalpha (remove_char "," (remove_char "." word)) || isupper word.

(** The two outer conditions on a line (lines 399-405), on the stripped
    line and its words. *)
Definition looks_like_name (line : string) (words : list string) : bool :=
  negb (line =? "") && (2 <? String.length line)%nat
  && (2 <=? List.length words)%nat
  && forallb word_ok (firstn 3 words)
  && (String.length (join " " (firstn 3 words)) <? 50)%nat.

(** The additional validation (lines 408-415). *)
Definition not_a_header (line : string) (words : list string) : bool :=
  let line_upper := upper line in
  negb (existsb (fun header => contains header line_upper) headers)
  && negb (existsb (fun char => contains char line) separators)
  && (List.length words <=? 4)%nat.

(** The body of the [for line in lines] loop: the name returned at this
    line, if any. *)
Definition name_of_line (line : string) : option string :=
  let line := strip line in
  let words := split line in
  if looks_like_name line words && not_a_header line words
  then Some (join " " (firstn 3 words))
  else None.

Fixpoint scan_lines (lines : list string) : option string :=
  match lines with
  | [] => None
  | line :: rest =>
      match name_of_line line with
      | Some name => Some name
      | None => scan_lines rest
      end
  end.

(** [os.path.splitext(os.path.basename(file_path))[0]]. *)
Definition filename_base (file_path : string) : string :=
  splitext_root (basename file_path).

Definition extract_candidate_name_from_text
    (resume_text file_path : string) : string :=
  let lines := firstn 10 (split_sep "010" resume_text) in
  match scan_lines lines with
  | Some name => name
  | None => filename_base file_path
  end.

End Names.

(** ** Batch analysis ([batch_analyze_resumes]) *)

Module Batch.

Import Text Analysis.
Local Open Scope string_scope.

(** One element of [resumes], together with the outcome of the request
    that [analyze_resume] makes for it. *)
Record Resume := {
  file_path : string;
  resume_text : string;
  response : option AnalysisData
}.

(** The choice of [final_name] (lines 455-466). *)
Definition final_name
    (reliable_name ai_extracted_name filename_base : string) : string :=
  if negb (reliable_name =? "") && negb (reliable_name =? filename_base)
  then reliable_name
  else if negb (ai_extracted_name =? "")
          && negb (ai_extracted_name =? "Unknown Candidate")
          && (2 <? String.length (strip ai_extracted_name))%nat
          && negb (contains "AVINASH" (upper ai_extracted_name))
  then ai_extracted_name
  else filename_base.

(** [analysis.candidate_name = final_name]. *)
Definition set_candidate_name (analysis : ResumeAnalysis)
    (final_name : string) : ResumeAnalysis := {|
  candidate_name := final_name;
  matching_score := matching_score analysis;
  key_skills := key_skills analysis;
  matching_skills := matching_skills analysis;
  missing_skills := missing_skills analysis;
  summary := summary analysis;
  strengths := strengths analysis;
  weaknesses := weaknesses analysis
|}.

(** One iteration of the loop: the analysis appended for one resume. *)
Definition analyze_one (required_skills : list string) (r : Resume)
    : ResumeAnalysis :=
  let reliable_name :=
    Names.extract_candidate_name_from_text (resume_text r) (file_path r) in
  let analysis := analyze_resume (response r) required_skills in
  let ai_extracted_name := candidate_name analysis in
  let filename_base := Names.filename_base (file_path r) in
  set_candidate_name analysis
    (final_name reliable_name ai_extracted_name filename_base).

(** The [for file_path, resume_text in resumes] loop; the last argument is
    the list [analyses] built so far. *)
Fixpoint analyze_loop (required_skills : list string) (resumes : list Resume)
    (analyses : list ResumeAnalysis) : list ResumeAnalysis :=
  match resumes with
  | [] => analyses
  | r :: rest =>
      analyze_loop required_skills rest
        (analyses ++ [analyze_one required_skills r])
  end.

(** [analyses.sort(key=lambda x: x.matching_score, reverse=True)].  Python's
    sort is stable, also with [reverse=True]; the stable sort by decreasing
    key is unique, and is computed here by insertion: an element goes in
    front of the first element whose key is not greater than its own. *)
Fixpoint insert_desc (x : ResumeAnalysis) (l : list ResumeAnalysis)
    : list ResumeAnalysis :=
  match l with
  | [] => [x]
  | y :: l' =>
      if Qle_bool (matching_score y) (matching_score x) then x :: l
      else y :: insert_desc x l'
  end.

Fixpoint sort_desc (l : list ResumeAnalysis) : list ResumeAnalysis :=
  match l with
  | [] => []
  | x :: l' => insert_desc x (sort_desc l')
  end.

Definition batch_analyze_resumes (resumes : list Resume)
    (required_skills : list string) : list ResumeAnalysis :=
  sort_desc (analyze_loop required_skills resumes []).

End Batch.

(** ** The wording of the specification, for comparison with the code *)

Module Spec.

Import Text.
Local Open Scope string_scope.

(** A claimed skill is accepted when, after lower-casing and trimming both
    strings, it equals some required skill or one contains the other. *)
Definition accepted (required : list string) (claimed_skill : string)
    : bool :=
  existsb
    (fun required_skill =>
       let c := strip (lower claimed_skill) in
       let r := strip (lower required_skill) in
       (c =? r) || contains c r || contains r c)
    required.

(** The acceptance conditions on a line as the specification lists them,
    on the trimmed line: more than 2 characters; at least 2 and at most 4
    words; each of the first 3 words alphabetic once periods and commas are
    removed, or fully upper-case (in the sense of [isupper]: some cased
    character and no lower-case one); the first 3 words joined by blanks under
    50 characters; no denylist token in the upper-cased line; none of the
    separators comma, colon, semicolon, pipe. *)
Definition qualifies (line : string) : bool :=
  let line := strip line in
  let words := split line in
  let first3 := firstn 3 words in
  (2 <? String.length line)%nat
  && (2 <=? List.length words)%nat && (List.length words <=? 4)%nat
  && forallb
       (fun w => isalpha (remove_char "," (remove_char "." w)) || isupper w)
       first3
  && (String.length (join " " first3) <? 50)%nat
  && forallb (fun token => negb (contains token (upper line))) Names.headers
  && forallb (fun sep => negb (contains sep line)) [","; ":"; ";"; "|"].

(** The name a qualifying line yields: its first 3 words joined by single
    blanks. *)
Definition name_of (line : string) : string :=
  join " " (firstn 3 (split (strip line))).

(** The precedence of the final name as the specification words it: the
    extracted name if it differs from the fallback identifier, else the
    claimed name if it is non-empty, longer than 2 characters after
    trimming and free of the anti-caching sentinel, else the fallback. *)
Definition final_name (extracted claimed fallback : string) : string :=
  if negb (extracted =? fallback) then extracted
  else if negb (claimed =? "")
          && (2 <? String.length (strip claimed))%nat
          && negb (contains "AVINASH" (upper claimed))
  then claimed
  else fallback.

(** [ge_score a b]: [a] may come before [b] in a list sorted by decreasing
    score. *)
Definition ge_score (a b : Analysis.ResumeAnalysis) : Prop :=
  Analysis.matching_score b <= Analysis.matching_score a.

(** The records whose score is [v], in the order of the list. *)
Definition with_score (v : Q) (l : list Analysis.ResumeAnalysis)
    : list Analysis.ResumeAnalysis :=
  filter (fun a => Qeq_bool (Analysis.matching_score a) v) l.

End Spec.

(** ** Sample inputs *)

Module Examples.

Import Analysis.
Local Open Scope string_scope.

(** A decoded answer with a name, a score and matching skills only. *)
Definition judgment (name : option string) (score : ScoreField)
    (skills : list string) : AnalysisData := {|
  d_candidate_name := name;
  d_matching_score := score;
  d_key_skills := None;
  d_matching_skills := Some skills;
  d_missing_skills := None;
  d_summary := None;
  d_strengths := None;
  d_weaknesses := None
|}.

(** A resume without text, stored as [cv1.pdf], whose judgment claims the
    name [name] and the score 50. *)
Definition blank_resume (name : string) : Batch.Resume := {|
  Batch.file_path := "cv1.pdf";
  Batch.resume_text := "";
  Batch.response := Some (judgment (Some name) (ScoreNumber 50) [])
|}.

(** Four resumes: the request fails for the first, the second judgment has
    a score that is not a number, the last two tie after calibration. *)
Definition sample_batch : list Batch.Resume := [
  {| Batch.file_path := "a.pdf"; Batch.resume_text := "Ann Lee";
     Batch.response := None |};
  {| Batch.file_path := "b.pdf"; Batch.resume_text := "Bob Ray";
     Batch.response := Some (judgment None ScoreInvalid ["Go"]) |};
  {| Batch.file_path := "c.pdf"; Batch.resume_text := "Cy Young";
     Batch.response :=
       Some (judgment (Some "Cy") (ScoreNumber 95) ["Go"; "Rust"]) |};
  {| Batch.file_path := "d.pdf"; Batch.resume_text := "Di Moss";
     Batch.response :=
       Some (judgment (Some "Di") (ScoreNumber 20) ["go"; "rust"]) |}
].

End Examples.

(** ** Cleaning and decoding of the service's answers
       ([parse_job_description], lines 121-147; [analyze_resume], lines
       236-262) *)

Module Reply.

Import Text.
Local Open Scope string_scope.

(** [s.startswith(pre)] and [s.endswith(suf)]. *)
Definition startswith (pre s : string) : bool := prefix pre s.

Fixpoint endswith (suf s : string) : bool :=
  (s =? suf)
  || match s with
     | EmptyString => false
     | String _ r => endswith suf r
     end.

(** [s[n:]] and [s[:-n]] for [n <= len(s)]. *)
Definition drop_first (n : nat) (s : string) : string :=
  substring n (String.length s - n) s.

Definition drop_last (n : nat) (s : string) : string :=
  substring 0 (String.length s - n) s.

(** The clean-up applied to [message.content] before [json.loads]: strip,
    then remove a leading json fence and a trailing fence. *)
Definition clean_response (result : string) : string :=
  let result := strip result in
  let result :=
    if startswith "```json" result then drop_first 7 result else result in
  if endswith "```" result then drop_last 3 result else result.

(** The dictionary decoded from the answer about the job description;
    [None] is an absent key. *)
Record JobRequirements := {
  job_title : option string;
  required_skills : option (list string);
  preferred_skills : option (list string);
  experience_level : option string;
  years_of_experience : option string;
  education_requirements : option (list string);
  responsibilities : option (list string);
  industry : option string;
  key_requirements : option (list string)
}.

(** The dictionary returned by the [except] branch of
    [parse_job_description]. *)
Definition default_requirements : JobRequirements := {|
  job_title := Some "Unknown";
  required_skills := Some [];
  preferred_skills := Some [];
  experience_level := Some "Not specified";
  years_of_experience := Some "Not specified";
  education_requirements := Some [];
  responsibilities := Some [];
  industry := Some "Not specified";
  key_requirements := Some []
|}.

(** [parse_job_description]: [content] is [message.content] of the answer,
    [None] when the request raised or the content is [None]; [loads] is
    [json.loads], [None] when it raises. *)
Definition parse_job_description
    (loads : string -> option JobRequirements) (content : option string)
    : JobRequirements :=
  match content with
  | None => default_requirements
  | Some result =>
      match loads (clean_response result) with
      | Some requirements => requirements
      | None => default_requirements
      end
  end.

(** Lines 250-262 of [analyze_resume]: the decoded [analysis_data], [None]
    when an exception is raised. *)
Definition decode_analysis
    (loads : string -> option Analysis.AnalysisData)
    (content : option string) : option Analysis.AnalysisData :=
  match content with
  | None => None
  | Some result => loads (clean_response result)
  end.

(** [analyze_resume] on the dictionary of requirements:
    [job_requirements.get('required_skills', [])] is the list of required
    skills. *)
Definition analyze_resume (response : option Analysis.AnalysisData)
    (job_requirements : JobRequirements) : Analysis.ResumeAnalysis :=
  Analysis.analyze_resume response
    (Analysis.get (required_skills job_requirements) []).

(** Lines 237-238: the temperature of the request, for a draw [jitter] of
    [random.uniform(-0.05, 0.05)]. *)
Definition random_temp (temperature jitter : Q) : Q :=
  let random_temp := (temperature + jitter)%Q in
  Qmax 0 (Qmin 1 random_temp).

End Reply.

(** ** Reading documents ([document_parser.py]) *)

Module Parser.

Import Text.
Local Open Scope string_scope.

(** What [docx.Document] exposes: the paragraph texts and, for each table,
    the cell texts of each row. *)
Record Docx := {
  paragraphs : list string;
  tables : list (list (list string))
}.

(** The file system and the three reader libraries: [file_exists] is
    [os.path.exists]; [open_docx] is [Document(file_path)], the two others
    give the [extract_text()] of each page ([None] for a page without
    text); each is [None] when the library raises. *)
Record Files := {
  file_exists : string -> bool;
  open_docx : string -> option Docx;
  pdfplumber_pages : string -> option (list (option string));
  pypdf2_pages : string -> option (list (option string))
}.

(** The loops [for x in xs: if x.text.strip(): text_content.append(...)]. *)
Fixpoint collect_texts (texts : list string) (text_content : list string)
    : list string :=
  match texts with
  | [] => text_content
  | text :: rest =>
      collect_texts rest
        (if negb (strip text =? "") then text_content ++ [strip text]
         else text_content)
  end.

Fixpoint collect_rows (rows : list (list string)) (text_content : list string)
    : list string :=
  match rows with
  | [] => text_content
  | row :: rest => collect_rows rest (collect_texts row text_content)
  end.

Fixpoint collect_tables (tables : list (list (list string)))
    (text_content : list string) : list string :=
  match tables with
  | [] => text_content
  | table :: rest => collect_tables rest (collect_rows table text_content)
  end.

(** The loops over pages: [if page_text and page_text.strip()]. *)
Fixpoint collect_pages (pages : list (option string))
    (text_content : list string) : list string :=
  match pages with
  | [] => text_content
  | page_text :: rest =>
      collect_pages rest
        (match page_text with
         | Some text =>
             if negb (text =? "") && negb (strip text =? "")
             then text_content ++ [strip text]
             else text_content
         | None => text_content
         end)
  end.

Definition newline : string := String "010" EmptyString.

Definition is_word_path (file_path : string) : bool :=
  Reply.endswith ".docx" (lower file_path)
  || Reply.endswith ".doc" (lower file_path).

Definition read_docx_file (fs : Files) (file_path : string) : option string :=
  if negb (file_exists fs file_path) then None
  else if negb (is_word_path file_path) then None
  else
    match open_docx fs file_path with
    | None => None
    | Some doc =>
        let text_content := collect_texts (paragraphs doc) [] in
        let text_content := collect_tables (tables doc) text_content in
        Some (join newline text_content)
    end.

Definition read_pdf_file (fs : Files) (file_path : string) : option string :=
  if negb (file_exists fs file_path) then None
  else
    let fallback :=
      match pypdf2_pages fs file_path with
      | None => None
      | Some pages =>
          match collect_pages pages [] with
          | [] => None
          | text_content => Some (join newline text_content)
          end
      end in
    match pdfplumber_pages fs file_path with
    | Some pages =>
        match collect_pages pages [] with
        | [] => fallback
        | text_content => Some (join newline text_content)
        end
    | None => fallback
    end.

Definition read_file (fs : Files) (file_path : string) : option string :=
  if negb (file_exists fs file_path) then None
  else
    let file_extension := lower file_path in
    if Reply.endswith ".docx" file_extension
       || Reply.endswith ".doc" file_extension
    then read_docx_file fs file_path
    else if Reply.endswith ".pdf" file_extension
    then read_pdf_file fs file_path
    else None.

Definition validate_file (fs : Files) (file_path : string) : bool :=
  if negb (file_exists fs file_path) then false
  else if negb (Reply.endswith ".docx" (lower file_path)
                || Reply.endswith ".doc" (lower file_path)
                || Reply.endswith ".pdf" (lower file_path))
  then false
  else true.

Definition read_job_description (fs : Files) (file_path : string)
    : option string := read_file fs file_path.

Definition read_resume (fs : Files) (file_path : string) : option string :=
  read_file fs file_path.

End Parser.

(** ** Ranking and display ([resume_ranker.py]) *)

Module Ranker.

Import Text Analysis.
Local Open Scope string_scope.

(** [sorted(analyses, key=lambda x: x.matching_score, reverse=True)]: the
    same stable sort as in [batch_analyze_resumes], on a copy. *)
Definition rank_resumes (analyses : list ResumeAnalysis)
    : list ResumeAnalysis :=
  Batch.sort_desc analyses.

(** The four [colorama] colours returned by [get_score_color]. *)
Inductive Color := GREEN | YELLOW | CYAN | RED.

Definition get_score_color (score : Q) : Color :=
  if Score.geb score 80 then GREEN
  else if Score.geb score 60 then YELLOW
  else if Score.geb score 40 then CYAN
  else RED.

(** The cell [top_skills] of [display_summary_table] (lines 133-136). *)
Definition top_skills (matching_skills : list string) : string :=
  let top_skills :=
    match matching_skills with
    | [] => "None"
    | _ :: _ => join ", " (firstn 3 matching_skills)
    end in
  if (37 <? String.length top_skills)%nat
  then substring 0 34 top_skills ++ "..."
  else top_skills.

(** The cell [analysis.candidate_name[:29]]. *)
Definition name_cell (candidate_name : string) : string :=
  substring 0 29 candidate_name.

(** Python's [sum], [max] and [min] of a list of numbers; the last two
    return the first extremal element and raise on the empty list. *)
Definition sum (scores : list Q) : Q := fold_left Qplus scores 0.

Definition max_of (scores : list Q) : option Q :=
  match scores with
  | [] => None
  | first :: rest =>
      Some (fold_left (fun m s => if Score.ltb m s then s else m) rest first)
  end.

Definition min_of (scores : list Q) : option Q :=
  match scores with
  | [] => None
  | first :: rest =>
      Some (fold_left (fun m s => if Score.ltb s m then s else m) rest first)
  end.

(** The numbers printed by [display_score_distribution]. *)
Record Distribution := {
  avg_score : Q;
  max_score : Q;
  min_score : Q;
  excellent : nat;
  good : nat;
  average : nat;
  poor : nat
}.

(** [display_score_distribution]: [None] when it returns at once (no
    analyses). *)
Definition display_score_distribution (analyses : list ResumeAnalysis)
    : option Distribution :=
  match analyses with
  | [] => None
  | _ :: _ =>
      let scores := map matching_score analyses in
      match max_of scores, min_of scores with
      | Some max_score, Some min_score =>
          Some {|
            avg_score :=
              sum scores / inject_Z (Z.of_nat (List.length scores));
            max_score := max_score;
            min_score := min_score;
            excellent :=
              List.length (filter (fun s => Score.geb s 80) scores);
            good :=
              List.length
                (filter (fun s => Score.geb s 60 && Score.ltb s 80) scores);
            average :=
              List.length
                (filter (fun s => Score.geb s 40 && Score.ltb s 60) scores);
            poor := List.length (filter (fun s => Score.ltb s 40) scores)
          |}
      | _, _ => None
      end
  end.

(** [ScoreCalculator.normalize_score]: [max(0.0, min(100.0, score))]. *)
Definition normalize_score (score : Q) : Q := Qmax 0 (Qmin 100 score).

(** [ScoreCalculator.calculate_weighted_score]. *)
Definition calculate_weighted_score
    (skill_match experience_match education_match additional_factors : Q)
    : Q :=
  let weighted_score :=
    (skill_match * 0.5 + experience_match * 0.3
     + education_match * 0.15 + additional_factors * 0.05)%Q in
  normalize_score weighted_score.

End Ranker.

(** ** The workflow ([resume_shortlister.py]) *)

Module Shortlister.

(** [analyze_and_rank]: the requirements are parsed from the answer about
    the job description, the resumes analysed in batch, the result
    ranked. *)
Definition analyze_and_rank
    (loads : string -> option Reply.JobRequirements)
    (job_answer : option string) (resumes : list Batch.Resume)
    : list Analysis.ResumeAnalysis :=
  let job_requirements := Reply.parse_job_description loads job_answer in
  let analyses :=
    Batch.batch_analyze_resumes resumes
      (Analysis.get (Reply.required_skills job_requirements) []) in
  Ranker.rank_resumes analyses.

End Shortlister.

(** ** Notions used to state properties *)

Module Notions.

(** [blank s]: [s] consists of white space only. *)
Definition blank (s : string) : bool := Text.forall_chars Text.is_space s.

(** [is_ascii s]: every character of [s] has a code below 128
    ([s.isascii()]). *)
Definition is_ascii (s : string) : bool :=
  Text.forall_chars (fun c => (Text.code c <? 128)%nat) s.

(** [has_char c s]: the character [c] occurs in [s]. *)
Definition has_char (c : ascii) (s : string) : bool :=
  Text.exists_char (Ascii.eqb c) s.

(** The stripped texts that are not empty, in order. *)
Definition nonblank_texts (texts : list string) : list string :=
  filter (fun t => negb (t =? "")%string) (map Text.strip texts).

(** [shown_in c analyses]: how many analyses are displayed in colour
    [c]. *)
Definition same_color (c1 c2 : Ranker.Color) : bool :=
  match c1, c2 with
  | Ranker.GREEN, Ranker.GREEN | Ranker.YELLOW, Ranker.YELLOW
  | Ranker.CYAN, Ranker.CYAN | Ranker.RED, Ranker.RED => true
  | _, _ => false
  end.

Definition shown_in (c : Ranker.Color)
    (analyses : list Analysis.ResumeAnalysis) : nat :=
  List.length
    (filter
       (fun a =>
          same_color (Ranker.get_score_color (Analysis.matching_score a)) c)
       analyses).

End Notions.

(** ** The batch analysis on answers whose name is any JSON value *)

Module Wire.

Import Text Analysis.
Local Open Scope string_scope.

(** The value stored under ['candidate_name'] in the decoded answer.  JSON
    allows any value there: the key may be absent, hold a string, or hold
    another value, which Python takes as false ([null], [false], [0], an
    empty array or object) or as true (any other number, [true], a
    non-empty array or object). *)
Inductive NameValue :=
| NameMissing
| NameText (s : string)
| NameOther (truthy : bool).

(** The decoded answer with its name as decoded. *)
Record Judgment := {
  w_candidate_name : NameValue;
  w_matching_score : ScoreField;
  w_key_skills : option (list string);
  w_matching_skills : option (list string);
  w_missing_skills : option (list string);
  w_summary : option string;
  w_strengths : option (list string);
  w_weaknesses : option (list string)
}.

(** The fields that [analyze_resume] computes with; the name is only
    stored by it. *)
Definition fields (j : Judgment) : AnalysisData := {|
  d_candidate_name :=
    match w_candidate_name j with
    | NameText s => Some s
    | NameMissing | NameOther _ => None
    end;
  d_matching_score := w_matching_score j;
  d_key_skills := w_key_skills j;
  d_matching_skills := w_matching_skills j;
  d_missing_skills := w_missing_skills j;
  d_summary := w_summary j;
  d_strengths := w_strengths j;
  d_weaknesses := w_weaknesses j
|}.

Record Resume := {
  file_path : string;
  resume_text : string;
  response : option Judgment
}.

(** The value of [analysis.candidate_name] after [analyze_resume]: a
    string, or the non-string value stored by line 358. *)
Inductive Name :=
| Str (s : string)
| NonStr (truthy : bool).

Definition ai_extracted_name (response : option Judgment)
    (required_skills : list string) : Name :=
  match response with
  | None => Str "Unknown Candidate"
  | Some j =>
      match analyze_body (Some (fields j)) required_skills with
      | None => Str "Unknown Candidate"
      | Some analysis =>
          match w_candidate_name j with
          | NameOther truthy => NonStr truthy
          | NameMissing | NameText _ => Str (candidate_name analysis)
          end
      end
  end.

(** The choice of [final_name] (lines 455-466); [None] when
    [ai_extracted_name.strip()] raises [AttributeError]: the name is not a
    string, and is true so that the conjunction reaches the call. *)
Definition final_name (reliable_name : string) (ai_extracted_name : Name)
    (filename_base : string) : option string :=
  if negb (reliable_name =? "") && negb (reliable_name =? filename_base)
  then Some reliable_name
  else
    match ai_extracted_name with
    | Str name =>
        if negb (name =? "")
           && negb (name =? "Unknown Candidate")
           && (2 <? String.length (strip name))%nat
           && negb (contains "AVINASH" (upper name))
        then Some name
        else Some filename_base
    | NonStr false => Some filename_base
    | NonStr true => None
    end.

(** One iteration of the loop of [batch_analyze_resumes]; [None] when it
    raises. *)
Definition analyze_one (required_skills : list string) (r : Resume)
    : option ResumeAnalysis :=
  let reliable_name :=
    Names.extract_candidate_name_from_text (resume_text r) (file_path r) in
  let analysis :=
    analyze_resume (option_map fields (response r)) required_skills in
  let ai_extracted_name := ai_extracted_name (response r) required_skills in
  let filename_base := Names.filename_base (file_path r) in
  match final_name reliable_name ai_extracted_name filename_base with
  | Some final_name => Some (Batch.set_candidate_name analysis final_name)
  | None => None
  end.

(** The loop: an exception in one iteration leaves the function, and the
    analyses built so far are lost. *)
Fixpoint analyze_loop (required_skills : list string) (resumes : list Resume)
    (analyses : list ResumeAnalysis) : option (list ResumeAnalysis) :=
  match resumes with
  | [] => Some analyses
  | r :: rest =>
      match analyze_one required_skills r with
      | Some analysis =>
          analyze_loop required_skills rest (analyses ++ [analysis])
      | None => None
      end
  end.

(** [batch_analyze_resumes]; [None] when it raises. *)
Definition batch_analyze_resumes (resumes : list Resume)
    (required_skills : list string) : option (list ResumeAnalysis) :=
  option_map Batch.sort_desc (analyze_loop required_skills resumes []).

(** A resume of [Batch], whose name is a string or absent, as decoded. *)
Definition of_typed_data (d : AnalysisData) : Judgment := {|
  w_candidate_name :=
    match d_candidate_name d with
    | Some s => NameText s
    | None => NameMissing
    end;
  w_matching_score := d_matching_score d;
  w_key_skills := d_key_skills d;
  w_matching_skills := d_matching_skills d;
  w_missing_skills := d_missing_skills d;
  w_summary := d_summary d;
  w_strengths := d_strengths d;
  w_weaknesses := d_weaknesses d
|}.

Definition of_typed (r : Batch.Resume) : Resume := {|
  file_path := Batch.file_path r;
  resume_text := Batch.resume_text r;
  response := option_map of_typed_data (Batch.response r)
|}.

(** A judgment whose name is the number 42 and whose score is 50. *)
Definition numeric_name : Judgment := {|
  w_candidate_name := NameOther true;
  w_matching_score := ScoreNumber 50;
  w_key_skills := None;
  w_matching_skills := Some ["Go"];
  w_missing_skills := None;
  w_summary := None;
  w_strengths := None;
  w_weaknesses := None
|}.

(** Two resumes: the first is analysed without trouble; the text of the
    second gives no name and its judgment has the numeric name. *)
Definition failing_batch : list Resume := [
  {| file_path := "a.pdf"; resume_text := "Ann Lee";
     response := Some (of_typed_data
                         (Examples.judgment (Some "Ann")
                            (ScoreNumber 70) ["Go"])) |};
  {| file_path := "b.pdf"; resume_text := "";
     response := Some numeric_name |}
].

End Wire.

(** ** Comparison lemmas *)

Lemma geb_true (a b : Q) : Score.geb a b = true <-> b <= a.
Proof. unfold Score.geb. apply Qle_bool_iff. Qed.

Lemma geb_false (a b : Q) : Score.geb a b = false <-> a < b.
Proof.
  unfold Score.geb. split; intro H.
  - apply Qnot_le_lt. intro Hle. apply Qle_bool_iff in Hle. congruence.
  - destruct (Qle_bool b a) eqn:E; [|reflexivity].
    apply Qle_bool_iff in E. exfalso. apply (Qlt_not_le _ _ H E).
Qed.

Lemma ltb_true (a b : Q) : Score.ltb a b = true <-> a < b.
Proof.
  unfold Score.ltb. rewrite negb_true_iff. apply (geb_false a b).
Qed.

Lemma ltb_false (a b : Q) : Score.ltb a b = false <-> b <= a.
Proof.
  unfold Score.ltb. rewrite negb_false_iff. apply (geb_true a b).
Qed.

(** Case analysis on the comparisons of a goal, leaving linear facts. *)
Ltac cases_cmp :=
  repeat (cbn [fst snd andb]; match goal with
  | |- context [Score.geb ?a ?b] =>
      let E := fresh "E" in
      destruct (Score.geb a b) eqn:E;
      [apply geb_true in E | apply geb_false in E]
  | |- context [Score.ltb ?a ?b] =>
      let E := fresh "E" in
      destruct (Score.ltb a b) eqn:E;
      [apply ltb_true in E | apply ltb_false in E]
  end).

Ltac min_cases :=
  repeat match goal with
  | |- context [Qmin ?a ?b] =>
      let H := fresh "Hm" in
      destruct (Q.min_spec a b) as [[? H]|[? H]]; rewrite H
  | |- context [Qmax ?a ?b] =>
      let H := fresh "Hm" in
      destruct (Q.max_spec a b) as [[? H]|[? H]]; rewrite H
  end.

Example validated_score_ex1 : Score.validated_score 95 0.95 true == 92.5.
Proof. vm_compute. reflexivity. Qed.

Example validated_score_ex2 : Score.validated_score 40 0.1 true == 11.
Proof. vm_compute. reflexivity. Qed.

Example validated_score_ex3 : Score.validated_score 70 0.65 true == 70.
Proof. vm_compute. reflexivity. Qed.

(** ** Bounds of the calibrated score *)

Ltac unfold_score :=
  unfold Score.validated_score, Score.min_score, Score.max_allowed_score,
    Score.score_range, Score.clamp.

Lemma validated_score_no_required (raw_score ratio : Q) :
  Score.validated_score raw_score ratio false = raw_score.
Proof. reflexivity. Qed.

Lemma validated_score_le_max (raw_score ratio : Q) :
  Score.validated_score raw_score ratio true <= Score.max_allowed_score ratio.
Proof.
  unfold_score. cases_cmp; cbn [fst snd andb]; min_cases; lra.
Qed.

Lemma max_allowed_le_100 (ratio : Q) : Score.max_allowed_score ratio <= 100.
Proof. unfold_score. cases_cmp; cbn [fst snd]; lra. Qed.

Lemma validated_score_le_100 (raw_score ratio : Q) :
  Score.validated_score raw_score ratio true <= 100.
Proof.
  eapply Qle_trans; [apply validated_score_le_max | apply max_allowed_le_100].
Qed.

Lemma validated_score_nonneg (raw_score ratio : Q) :
  0 <= raw_score \/ 0.8 <= ratio ->
  0 <= Score.validated_score raw_score ratio true.
Proof.
  intros H. unfold_score.
  cases_cmp; cbn [fst snd andb]; min_cases; destruct H; lra.
Qed.

(** C1, as stated, fails: with an empty required-skill list a raw score of
    150 is returned as it is, above 100. *)
Lemma C1_counterexample :
  ~ (0 <= Score.validated_score 150 0 false <= 100).
Proof. cbn. intros [_ H]. revert H. apply Qlt_not_le. reflexivity. Qed.

(** C1 (amended): the calibrated score is at most 100 whenever the
    required-skill list is non-empty or the raw score is at most 100, and
    at least 0 whenever the raw score is at least 0 or the list is
    non-empty with a ratio of at least 0.8; so it lies in [0,100] for every
    ratio and both values of [has_required] when the raw score does. *)
Theorem C1_calibrated_score_bounds (raw_score ratio : Q) (has_required : bool) :
  (has_required = true \/ raw_score <= 100 ->
     Score.validated_score raw_score ratio has_required <= 100)
  /\ (0 <= raw_score \/ (has_required = true /\ 0.8 <= ratio) ->
     0 <= Score.validated_score raw_score ratio has_required)
  /\ (0 <= raw_score <= 100 ->
     0 <= Score.validated_score raw_score ratio has_required <= 100).
Proof.
  destruct has_required.
  - repeat split; intros.
    + apply validated_score_le_100.
    + apply validated_score_nonneg. tauto.
    + apply validated_score_nonneg. tauto.
    + apply validated_score_le_100.
  - rewrite validated_score_no_required.
    repeat split; intros; try tauto.
    + destruct H as [H|H]; [discriminate | exact H].
    + destruct H as [H|[H _]]; [exact H | discriminate].
Qed.

Lemma C1_calibrated_score_bounds_witness :
  Score.validated_score 120 0.5 true <= 100
  /\ 0 <= Score.validated_score 40 0.5 false
  /\ 0 <= Score.validated_score 40 0.5 true <= 100.
Proof.
  pose proof (C1_calibrated_score_bounds 120 0.5 true) as [Hup _].
  pose proof (C1_calibrated_score_bounds 40 0.5 false) as [_ [Hlow _]].
  pose proof (C1_calibrated_score_bounds 40 0.5 true) as [_ [_ Hboth]].
  split; [|split].
  - apply Hup. left. reflexivity.
  - apply Hlow. left. unfold Qle; simpl; lia.
  - apply Hboth. split; unfold Qle; simpl; lia.
Defined.

(** C2, as stated, fails: with an empty required-skill list a raw score of
    150 is returned as it is, while [clamp(150, 0, 100)] is 100. *)
Lemma C2_counterexample :
  ~ (Score.validated_score 150 0 false == Score.clamp 150 0 100).
Proof. vm_compute. discriminate. Qed.

(** C2 (amended): when the required-skill list is empty the calibration
    step returns the raw score unchanged, whatever the ratio: no banding
    and no clamping is applied; the result is [clamp(raw_score, 0, 100)]
    exactly when the raw score lies in [0,100]. *)
Theorem C2_no_required_returns_raw (raw_score ratio : Q) :
  Score.validated_score raw_score ratio false = raw_score
  /\ (Score.validated_score raw_score ratio false
        == Score.clamp raw_score 0 100
      <-> 0 <= raw_score <= 100).
Proof.
  split; [reflexivity|].
  rewrite validated_score_no_required. unfold Score.clamp.
  split; intro H.
  - destruct (Q.max_spec 0 (Qmin raw_score 100)) as [[H1 H2]|[H1 H2]];
      rewrite H2 in H;
      destruct (Q.min_spec raw_score 100) as [[H3 H4]|[H3 H4]];
      rewrite H4 in *; split; lra.
  - destruct H as [H0 H100].
    rewrite (Q.min_l raw_score 100) by exact H100.
    rewrite (Q.max_r 0 raw_score) by exact H0. reflexivity.
Qed.

Lemma C2_no_required_returns_raw_witness :
  Score.validated_score 42 0.3 false == Score.clamp 42 0 100.
Proof.
  apply (C2_no_required_returns_raw 42 0.3).
  split; unfold Qle; simpl; lia.
Defined.

(** C3: for every raw score and every ratio of at least 0.9, with a
    non-empty required-skill list, the calibrated score is
    [min(85 + (ratio - 0.9) * 150, 100)]; it does not depend on the raw
    score, is non-decreasing in the ratio and lies in [85,100]. *)
Theorem C3_outstanding_boost (raw_score ratio : Q) (Hratio : 0.9 <= ratio) :
  Score.validated_score raw_score ratio true
    = Qmin (85 + (ratio - 0.9) * 150) 100
  /\ (forall raw_score',
        Score.validated_score raw_score' ratio true
        = Score.validated_score raw_score ratio true)
  /\ (forall raw_score' ratio',
        ratio <= ratio' ->
        Score.validated_score raw_score ratio true
        <= Score.validated_score raw_score' ratio' true)
  /\ 85 <= Score.validated_score raw_score ratio true <= 100.
Proof.
  assert (Hout : forall raw r, 0.9 <= r ->
            Score.validated_score raw r true
            = Qmin (85 + (r - 0.9) * 150) 100).
  { intros raw r Hr. unfold Score.validated_score.
    apply geb_true in Hr. rewrite Hr. reflexivity. }
  split; [apply Hout; exact Hratio|].
  split; [intros; rewrite !Hout by exact Hratio; reflexivity|].
  split.
  - intros raw' ratio' Hle.
    rewrite (Hout raw_score ratio Hratio).
    rewrite (Hout raw' ratio') by lra.
    min_cases; lra.
  - rewrite (Hout raw_score ratio Hratio). min_cases; split; lra.
Qed.

Lemma C3_outstanding_boost_witness :
  Score.validated_score 10 0.95 true = Qmin (85 + (0.95 - 0.9) * 150) 100.
Proof.
  apply (C3_outstanding_boost 10 0.95). unfold Qle; simpl; lia.
Defined.

(** C6, as stated, fails: with a ratio of 0.7 (band [60,80]) a raw score of
    50 takes the pass-through branch and is returned as it is, below the
    band's minimum. *)
Lemma C6_counterexample :
  ~ (Score.min_score 0.7 <= Score.validated_score 50 0.7 true
     <= Score.max_allowed_score 0.7).
Proof. vm_compute. intros [H _]. apply H. reflexivity. Qed.

(** C6 (amended): with a non-empty required-skill list, one application of
    the calibration step never exceeds the selected band's
    [max_allowed_score]; the result lies in [85,100] for a ratio of at least
    0.9, is at most [min_score + 0.3 * (max_allowed_score - min_score)] for
    a ratio below 0.2, and reaches the band's [min_score] when the ratio is
    at least 0.8 or when the raw score already does (ratio at least 0.2).
    The pass-through branch returns a raw score that is at most
    [max_allowed_score], and at least [min_score] only under those
    conditions: for a ratio in [0.2, 0.8) a raw score below [min_score] is
    returned as it is, and at every ratio the result reaches [min_score]
    exactly when the ratio is at least 0.8 or the raw score reaches it. *)
Theorem C6_single_application_band (raw_score ratio : Q) :
  let result := Score.validated_score raw_score ratio true in
  let min_score := Score.min_score ratio in
  let max_allowed_score := Score.max_allowed_score ratio in
  result <= max_allowed_score
  /\ (0.9 <= ratio -> 85 <= result <= 100)
  /\ (ratio < 0.2 ->
      result <= min_score + 0.3 * (max_allowed_score - min_score))
  /\ (0.8 <= ratio -> min_score <= result)
  /\ (0.2 <= ratio -> min_score <= raw_score -> min_score <= result)
  /\ (0.2 <= ratio < 0.9 -> min_score <= raw_score <= max_allowed_score ->
      result = raw_score)
  /\ (0.2 <= ratio < 0.8 -> raw_score < min_score ->
      result = raw_score /\ result < min_score)
  /\ (min_score <= result <-> 0.8 <= ratio \/ min_score <= raw_score).
Proof.
  cbv zeta. split; [apply validated_score_le_max|].
  unfold_score.
  do 6 (split; [intros;
    repeat match goal with H : _ /\ _ |- _ => destruct H end;
    cases_cmp; cbn [fst snd andb] in *; min_cases;
    solve [lra | reflexivity | exfalso; lra | split; lra
          | split; [reflexivity | lra]]|]).
  split.
  - cases_cmp; cbn [fst snd andb] in *; min_cases; intro Hres;
      solve [left; lra | right; lra].
  - intros [Hr|Hr]; revert Hr;
      cases_cmp; cbn [fst snd andb] in *; min_cases; intro Hr;
      solve [lra | exfalso; lra].
Qed.

Lemma C6_single_application_band_witness :
  85 <= Score.validated_score 10 0.95 true <= 100
  /\ Score.validated_score 90 0.1 true
     <= Score.min_score 0.1
        + 0.3 * (Score.max_allowed_score 0.1 - Score.min_score 0.1)
  /\ Score.min_score 0.85 <= Score.validated_score 10 0.85 true
  /\ Score.min_score 0.7 <= Score.validated_score 72 0.7 true
  /\ Score.validated_score 72 0.7 true = 72
  /\ (Score.validated_score 50 0.7 true = 50
      /\ Score.validated_score 50 0.7 true < Score.min_score 0.7).
Proof.
  pose proof (C6_single_application_band 10 0.95) as [_ [H1 _]].
  pose proof (C6_single_application_band 90 0.1) as [_ [_ [H2 _]]].
  pose proof (C6_single_application_band 10 0.85) as [_ [_ [_ [H3 _]]]].
  pose proof (C6_single_application_band 72 0.7)
    as [_ [_ [_ [_ [H4 [H5 _]]]]]].
  pose proof (C6_single_application_band 50 0.7)
    as [_ [_ [_ [_ [_ [_ [H6 _]]]]]]].
  split; [|split; [|split; [|split; [|split]]]].
  - apply H1. unfold Qle; simpl; lia.
  - apply H2. unfold Qlt; simpl; lia.
  - apply H3. unfold Qle; simpl; lia.
  - apply H4; unfold Qle; simpl; lia.
  - apply H5; split; unfold Qle, Qlt; simpl; lia.
  - apply H6; [split|]; unfold Qle, Qlt; simpl; lia.
Defined.

(** C10: with a non-empty required-skill list the calibrated score never
    exceeds 100, whatever the raw score and the ratio; if moreover the raw
    score is at least 0 it lies in [0,100]; with an empty list the raw
    score is returned as it is, so no bound is enforced. *)
Theorem C10_bounds_with_required (raw_score ratio : Q) :
  Score.validated_score raw_score ratio true <= 100
  /\ (0 <= raw_score ->
      0 <= Score.validated_score raw_score ratio true <= 100)
  /\ Score.validated_score raw_score ratio false = raw_score.
Proof.
  split; [apply validated_score_le_100|].
  split; [|reflexivity].
  intro H. split.
  - apply validated_score_nonneg. left. exact H.
  - apply validated_score_le_100.
Qed.

Lemma C10_bounds_with_required_witness :
  0 <= Score.validated_score 30 0.5 true <= 100.
Proof.
  pose proof (C10_bounds_with_required 30 0.5) as [_ [H _]].
  apply H. unfold Qle; simpl; lia.
Defined.

(** ** Skill validation *)

Section SkillValidation.

Import Text.
Local Open Scope string_scope.

Variable required_skills : list string.

(** The inner loop stops with a match exactly for the accepted skills. *)
Lemma matched_req_skill_accepted (skill : string) :
  Spec.accepted required_skills skill
  = match Skills.matched_req_skill (strip (lower skill)) required_skills with
    | Some _ => true
    | None => false
    end.
Proof.
  unfold Spec.accepted.
  induction required_skills as [|req rest IH]; [reflexivity|].
  cbn [existsb Skills.matched_req_skill]. unfold Skills.close_match.
  destruct ((strip (lower skill) =? strip (lower req))
            || contains (strip (lower skill)) (strip (lower req))
            || contains (strip (lower req)) (strip (lower skill)));
    [reflexivity | exact IH].
Qed.

(** The outer loop appends the accepted skills, in order. *)
Lemma validate_loop_filter (matching_skills validated : list string) :
  Skills.validate_loop matching_skills required_skills validated
  = (validated ++ filter (Spec.accepted required_skills) matching_skills)%list.
Proof.
  revert validated.
  induction matching_skills as [|skill rest IH]; intro validated.
  - cbn. now rewrite app_nil_r.
  - cbn [Skills.validate_loop filter].
    rewrite matched_req_skill_accepted.
    destruct (Skills.matched_req_skill (strip (lower skill)) required_skills).
    + rewrite IH, <- app_assoc. reflexivity.
    + apply IH.
Qed.

End SkillValidation.

Lemma filter_length_bound {A} (f : A -> bool) (l : list A) :
  (List.length (filter f l) <= List.length l)%nat.
Proof.
  induction l as [|x l IH]; cbn; [lia|].
  destruct (f x); cbn; lia.
Qed.

Lemma ratio_of_nonneg (a b : nat) : (0 < b)%nat -> 0 <= Skills.ratio_of a b.
Proof.
  intro Hb. unfold Skills.ratio_of.
  apply Qle_shift_div_l.
  - change 0 with (inject_Z 0). rewrite <- Zlt_Qlt. lia.
  - rewrite Qmult_0_l. change 0 with (inject_Z 0). rewrite <- Zle_Qle. lia.
Qed.

Lemma ratio_of_mono (a a' b : nat) :
  (0 < b)%nat -> (a <= a')%nat -> Skills.ratio_of a b <= Skills.ratio_of a' b.
Proof.
  intros Hb Ha. unfold Skills.ratio_of, Qdiv.
  apply Qmult_le_compat_r.
  - rewrite <- Zle_Qle. lia.
  - apply Qinv_le_0_compat. change 0 with (inject_Z 0).
    rewrite <- Zle_Qle. lia.
Qed.

Lemma ratio_of_le_1 (a b : nat) :
  (0 < b)%nat -> (a <= b)%nat -> Skills.ratio_of a b <= 1.
Proof.
  intros Hb Ha. unfold Skills.ratio_of.
  apply Qle_shift_div_r.
  - change 0 with (inject_Z 0). rewrite <- Zlt_Qlt. lia.
  - rewrite Qmult_1_l. rewrite <- Zle_Qle. lia.
Qed.

Lemma validate_with_required (claimed required : list string) :
  required <> [] ->
  Skills.validate claimed required
  = (filter (Spec.accepted required) claimed,
     Skills.ratio_of (List.length (filter (Spec.accepted required) claimed))
                     (List.length required)).
Proof.
  intro Hreq. unfold Skills.validate.
  destruct required as [|r rs]; [congruence|].
  cbn [Skills.has_required]. rewrite validate_loop_filter. reflexivity.
Qed.

(** C4: for a non-empty required-skill list, the validated list is the
    claimed list restricted to the skills that, after lower-casing and
    trimming, equal a required skill or contain or are contained in one;
    the skills keep their claimed form and order and are not deduplicated;
    the ratio is the number of validated skills divided by the number of
    required skills.  The example of the specification evaluates to
    [["LangChain"]] and 0.5. *)
Theorem C4_skill_validation :
  (forall claimed required : list string,
     required <> [] ->
     let validated := fst (Skills.validate claimed required) in
     let ratio := snd (Skills.validate claimed required) in
     validated = filter (Spec.accepted required) claimed
     /\ (forall skill, In skill validated <->
           In skill claimed /\ Spec.accepted required skill = true)
     /\ ratio = inject_Z (Z.of_nat (List.length validated))
                / inject_Z (Z.of_nat (List.length required)))
  /\ fst (Skills.validate ["Python"; "LangChain"]
                          ["LangChain"; "OpenAI API"])%string
     = ["LangChain"]%string
  /\ snd (Skills.validate ["Python"; "LangChain"]
                          ["LangChain"; "OpenAI API"])%string
     == 0.5.
Proof.
  split; [|split; [reflexivity | vm_compute; reflexivity]].
  intros claimed required Hreq. cbv zeta.
  rewrite (validate_with_required claimed required Hreq). cbn [fst snd].
  split; [reflexivity|]. split; [|reflexivity].
  intro skill. apply filter_In.
Qed.

Lemma C4_skill_validation_witness :
  fst (Skills.validate ["python "; "Rust"; "SQL"; "python "]
                       ["Python 3"; "MySQL"])%string
  = ["python "; "SQL"; "python "]%string.
Proof.
  pose proof C4_skill_validation as [H _].
  specialize (H ["python "; "Rust"; "SQL"; "python "]%string
                ["Python 3"; "MySQL"]%string).
  cbv zeta in H. destruct H as [H _]; [discriminate|].
  rewrite H. reflexivity.
Defined.

(** C5, as stated, fails: two claimed skills that both match the only
    required skill give a ratio of 2. *)
Lemma C5_counterexample :
  ~ (0 <= snd (Skills.validate ["Python"; "Python 3"] ["Python"])%string <= 1).
Proof. vm_compute. intros [_ H]. apply H. reflexivity. Qed.

(** C5 (amended): for a non-empty required-skill list the ratio is at least
    0 and at most the number of claimed skills divided by the number of
    required skills; it lies in [0,1] whenever the validated skills are no
    more numerous than the required ones, in particular when the claimed
    list is no longer than the required list. *)
Theorem C5_ratio_bounds (claimed required : list string)
    (Hreq : required <> []) :
  let validated := fst (Skills.validate claimed required) in
  let ratio := snd (Skills.validate claimed required) in
  0 <= ratio
  /\ ratio <= inject_Z (Z.of_nat (List.length claimed))
              / inject_Z (Z.of_nat (List.length required))
  /\ ((List.length validated <= List.length required)%nat -> ratio <= 1)
  /\ ((List.length claimed <= List.length required)%nat -> ratio <= 1).
Proof.
  cbv zeta. rewrite (validate_with_required claimed required Hreq).
  cbn [fst snd].
  assert (Hpos : (0 < List.length required)%nat).
  { destruct required; [congruence | cbn; lia]. }
  pose proof (filter_length_bound (Spec.accepted required) claimed) as Hlen.
  split; [apply ratio_of_nonneg; exact Hpos|].
  split; [apply ratio_of_mono; assumption|].
  split; intro H; apply ratio_of_le_1; try exact Hpos; lia.
Qed.

Lemma C5_ratio_bounds_witness :
  0 <= snd (Skills.validate ["Python"; "LangChain"]
                            ["LangChain"; "OpenAI API"])%string <= 1.
Proof.
  pose proof (C5_ratio_bounds ["Python"; "LangChain"]%string
                ["LangChain"; "OpenAI API"]%string) as H.
  cbv zeta in H. destruct H as [H0 [_ [_ H1]]]; [discriminate|].
  split; [exact H0 | apply H1; simpl; lia].
Defined.

(** ** Name extraction *)

Section NameExtraction.

Import Text.
Local Open Scope string_scope.

Lemma negb_existsb {A} (f : A -> bool) (l : list A) :
  negb (existsb f l) = forallb (fun x => negb (f x)) l.
Proof.
  induction l as [|x l IH]; [reflexivity|].
  cbn. rewrite negb_orb, IH. reflexivity.
Qed.

Lemma length_gt_not_empty (s : string) (n : nat) :
  (n <? String.length s)%nat = true -> (s =? "") = false.
Proof.
  destruct s; [|reflexivity].
  cbn. discriminate.
Qed.

(** The nested conditions of the loop body are the conjunction of the
    acceptance conditions. *)
Lemma name_of_line_qualifies (line : string) :
  Names.name_of_line line
  = if Spec.qualifies line then Some (Spec.name_of line) else None.
Proof.
  unfold Names.name_of_line, Spec.qualifies, Spec.name_of,
    Names.looks_like_name, Names.not_a_header, Names.separators.
  set (l := strip line). set (ws := split l).
  rewrite !negb_existsb.
  destruct (2 <? String.length l)%nat eqn:Hlen.
  - rewrite (length_gt_not_empty _ _ Hlen). cbn [negb andb].
    destruct (2 <=? List.length ws)%nat; cbn [andb]; [|reflexivity].
    destruct (forallb Names.word_ok (firstn 3 ws)) eqn:Hw;
      unfold Names.word_ok in Hw; rewrite Hw;
      rewrite ?andb_false_r; cbn [andb]; [|reflexivity].
    destruct (List.length ws <=? 4)%nat;
      rewrite ?andb_true_r, ?andb_false_r; cbn [andb]; [|reflexivity].
    destruct (String.length (join " " (firstn 3 ws)) <? 50)%nat;
      cbn [andb]; reflexivity.
  - rewrite andb_false_r. reflexivity.
Qed.

Lemma scan_lines_find (lines : list string) :
  Names.scan_lines lines = option_map Spec.name_of (find Spec.qualifies lines).
Proof.
  induction lines as [|line rest IH]; [reflexivity|].
  cbn [Names.scan_lines find]. rewrite name_of_line_qualifies.
  destruct (Spec.qualifies line); [reflexivity | exact IH].
Qed.

Lemma split_words_not_empty (s w : string) : In w (split s) -> w <> "".
Proof.
  unfold split. intro H. apply filter_In in H. destruct H as [_ H].
  intro Hw. subst w. discriminate.
Qed.

Lemma join_not_empty (sep w : string) (ws : list string) :
  w <> "" -> join sep (w :: ws) <> "".
Proof.
  intro Hw. unfold join. cbn [concat].
  destruct ws; [exact Hw|].
  destruct w; [congruence | discriminate].
Qed.

Lemma qualifies_name_not_empty (line : string) :
  Spec.qualifies line = true -> Spec.name_of line <> "".
Proof.
  unfold Spec.qualifies, Spec.name_of.
  set (ws := split (strip line)). intro H.
  repeat (apply andb_prop in H; destruct H as [H ?]).
  assert (Hin : forall w, In w ws -> w <> "")
    by (intros w; apply split_words_not_empty).
  destruct ws as [|w ws'].
  - match goal with H : (2 <=? _)%nat = true |- _ => cbn in H end.
    discriminate.
  - cbn [firstn]. apply join_not_empty. apply Hin. left. reflexivity.
Qed.

Lemma extract_find (resume_text file_path : string) :
  Names.extract_candidate_name_from_text resume_text file_path
  = match find Spec.qualifies (firstn 10 (split_sep "010" resume_text)) with
    | Some line => Spec.name_of line
    | None => Names.filename_base file_path
    end.
Proof.
  unfold Names.extract_candidate_name_from_text.
  rewrite scan_lines_find.
  destruct (find Spec.qualifies _); reflexivity.
Qed.

(** The extracted name is empty only when it is the (empty) fallback. *)
Lemma extract_empty_is_fallback (resume_text file_path : string) :
  Names.extract_candidate_name_from_text resume_text file_path = "" ->
  Names.filename_base file_path = "".
Proof.
  rewrite extract_find.
  destruct (find Spec.qualifies _) as [line|] eqn:Hf; [|tauto].
  apply find_some in Hf. destruct Hf as [_ Hq].
  intro H. exfalso. exact (qualifies_name_not_empty line Hq H).
Qed.

End NameExtraction.

(** C8, as stated, fails: when no line qualifies and the file path has an
    empty base name (here the empty path), the result is the empty
    string. *)
Lemma C8_counterexample :
  ~ (Names.extract_candidate_name_from_text "" "" <> ""%string).
Proof. intro H. apply H. reflexivity. Qed.

(** C8 (amended): name extraction is total; it looks at the first 10 lines
    only, in order, and returns the first 3 words, joined by single
    blanks, of the first line that passes all acceptance conditions; if
    none does it returns the file path with directory and extension
    stripped.  The result is non-empty whenever a line qualifies or that
    fallback identifier is non-empty.  The example of the specification
    evaluates to "John A. Smith". *)
Theorem C8_name_extraction :
  (forall resume_text file_path : string,
     let lines := firstn 10 (Text.split_sep "010" resume_text) in
     let name :=
       Names.extract_candidate_name_from_text resume_text file_path in
     name = match find Spec.qualifies lines with
            | Some line =>
                Text.join " " (firstn 3 (Text.split (Text.strip line)))
            | None => Names.filename_base file_path
            end
     /\ (Names.filename_base file_path <> ""%string -> name <> ""%string)
     /\ (forall line, find Spec.qualifies lines = Some line ->
                      name <> ""%string))
  /\ Names.extract_candidate_name_from_text
       ("John A. Smith" ++ String "010" "Senior Engineer"
        ++ String "010" "Skills: Python, SQL")%string
       "resume_007"
     = "John A. Smith"%string.
Proof.
  split; [|reflexivity].
  intros resume_text file_path. cbv zeta.
  split; [apply extract_find|].
  split.
  - intros Hbase Hname. apply Hbase.
    exact (extract_empty_is_fallback resume_text file_path Hname).
  - intros line Hfind. rewrite extract_find, Hfind.
    apply find_some in Hfind. destruct Hfind as [_ Hq].
    exact (qualifies_name_not_empty line Hq).
Qed.

Lemma C8_name_extraction_witness :
  Names.extract_candidate_name_from_text
    ("CURRICULUM VITAE" ++ String "010" "Jane Doe")%string
    "/home/hr/resumes/cv_12.pdf"
  <> ""%string.
Proof.
  pose proof C8_name_extraction as [H _].
  specialize (H ("CURRICULUM VITAE" ++ String "010" "Jane Doe")%string
                "/home/hr/resumes/cv_12.pdf"%string).
  cbv zeta in H. destruct H as [_ [H _]].
  apply H. vm_compute. discriminate.
Defined.

(** ** The final name *)

Lemma analyze_resume_name (response : option Analysis.AnalysisData)
    (required_skills : list string) :
  Analysis.candidate_name (Analysis.analyze_resume response required_skills)
  = match response with
    | Some d =>
        match Analysis.float_score (Analysis.d_matching_score d) with
        | Some _ =>
            Analysis.get (Analysis.d_candidate_name d)
                         "Unknown Candidate"%string
        | None => "Unknown Candidate"%string
        end
    | None => "Unknown Candidate"%string
    end.
Proof.
  unfold Analysis.analyze_resume, Analysis.analyze_body.
  destruct response as [d|]; [|reflexivity].
  destruct (Analysis.float_score (Analysis.d_matching_score d));
    [|reflexivity].
  destruct (Skills.validate _ _). reflexivity.
Qed.

(** C9, as stated, fails: when the text yields no name and the judgment
    claims the name "Unknown Candidate" (non-empty, longer than 2
    characters, without the sentinel), the code falls back to the file
    name. *)
Lemma C9_counterexample :
  Analysis.candidate_name
    (Batch.analyze_one [] (Examples.blank_resume "Unknown Candidate"))
  = "cv1"%string
  /\ Analysis.candidate_name
       (Batch.analyze_one [] (Examples.blank_resume "Unknown Candidate"))
     <> Spec.final_name
          (Names.extract_candidate_name_from_text "" "cv1.pdf")
          "Unknown Candidate"
          (Names.filename_base "cv1.pdf").
Proof. vm_compute. split; [reflexivity | discriminate]. Qed.

(** C9 (amended): the final name follows the stated precedence, with one
    more condition in (b): the claimed name is also passed over when it is
    the placeholder "Unknown Candidate", which is also the name of an
    analysis that failed or whose judgment has no name; and the sentinel
    is matched by containment in the upper-cased claimed name. *)
Theorem C9_final_name_precedence (r : Batch.Resume)
    (required_skills : list string) :
  let extracted :=
    Names.extract_candidate_name_from_text
      (Batch.resume_text r) (Batch.file_path r) in
  let fallback := Names.filename_base (Batch.file_path r) in
  let claimed :=
    Analysis.candidate_name
      (Analysis.analyze_resume (Batch.response r) required_skills) in
  Analysis.candidate_name (Batch.analyze_one required_skills r)
  = Spec.final_name extracted
      (if (claimed =? "Unknown Candidate")%string then ""%string else claimed)
      fallback
  /\ (forall d q,
        Batch.response r = Some d ->
        Analysis.float_score (Analysis.d_matching_score d) = Some q ->
        claimed = Analysis.get (Analysis.d_candidate_name d)
                               "Unknown Candidate"%string)
  /\ (Analysis.analyze_body (Batch.response r) required_skills = None ->
      claimed = "Unknown Candidate"%string).
Proof.
  cbv zeta. split; [|split].
  - unfold Batch.analyze_one, Batch.set_candidate_name.
    cbn [Analysis.candidate_name].
    set (extracted := Names.extract_candidate_name_from_text _ _).
    set (claimed := Analysis.candidate_name _).
    set (fallback := Names.filename_base _).
    unfold Batch.final_name, Spec.final_name.
    destruct (extracted =? fallback)%string eqn:Hef.
    + rewrite andb_false_r.
      destruct (claimed =? "Unknown Candidate")%string eqn:Huc.
      * rewrite andb_false_r. reflexivity.
      * cbn [negb andb]. rewrite andb_true_r. reflexivity.
    + cbn [negb andb]. rewrite andb_true_r.
      destruct (extracted =? "")%string eqn:He; [|reflexivity].
      apply String.eqb_eq in He. apply String.eqb_neq in Hef.
      exfalso. apply Hef. rewrite He. symmetry.
      apply (extract_empty_is_fallback (Batch.resume_text r)). exact He.
  - intros d q Hr Hq. rewrite analyze_resume_name, Hr, Hq. reflexivity.
  - intro Hnone. unfold Analysis.analyze_resume. rewrite Hnone. reflexivity.
Qed.

Lemma C9_final_name_precedence_witness :
  Analysis.candidate_name
    (Analysis.analyze_resume
       (Batch.response (Examples.blank_resume "Maria Lopez")) [])
  = "Maria Lopez"%string.
Proof.
  pose proof (C9_final_name_precedence
                (Examples.blank_resume "Maria Lopez") []) as H.
  cbv zeta in H. destruct H as [_ [H _]].
  exact (H _ 50 eq_refl eq_refl).
Defined.

(** ** Batch analysis: one record per resume, sorted stably *)

Section BatchAnalysis.

Import Analysis.

Lemma analyze_loop_map (required_skills : list string)
    (resumes : list Batch.Resume) (analyses : list ResumeAnalysis) :
  Batch.analyze_loop required_skills resumes analyses
  = analyses ++ map (Batch.analyze_one required_skills) resumes.
Proof.
  revert analyses.
  induction resumes as [|r rest IH]; intro analyses; cbn.
  - now rewrite app_nil_r.
  - rewrite IH, <- app_assoc. reflexivity.
Qed.

Lemma insert_desc_perm (x : ResumeAnalysis) (l : list ResumeAnalysis) :
  Permutation (x :: l) (Batch.insert_desc x l).
Proof.
  induction l as [|y l IH]; cbn; [apply Permutation_refl|].
  destruct (Qle_bool (matching_score y) (matching_score x)).
  - apply Permutation_refl.
  - eapply perm_trans; [apply perm_swap|]. apply perm_skip. exact IH.
Qed.

Lemma sort_desc_perm (l : list ResumeAnalysis) :
  Permutation l (Batch.sort_desc l).
Proof.
  induction l as [|x l IH]; cbn; [constructor|].
  eapply perm_trans; [apply perm_skip; exact IH | apply insert_desc_perm].
Qed.

Lemma insert_desc_sorted (x : ResumeAnalysis) (l : list ResumeAnalysis) :
  StronglySorted Spec.ge_score l ->
  StronglySorted Spec.ge_score (Batch.insert_desc x l).
Proof.
  induction l as [|y l IH]; intro Hs; cbn.
  - constructor; constructor.
  - apply StronglySorted_inv in Hs. destruct Hs as [Hl Hy].
    destruct (Qle_bool (matching_score y) (matching_score x)) eqn:E.
    + apply Qle_bool_iff in E.
      constructor; [constructor; assumption|].
      constructor; [exact E|].
      eapply Forall_impl; [|exact Hy].
      intros z Hz. unfold Spec.ge_score in *. eapply Qle_trans; eassumption.
    + constructor; [apply IH; exact Hl|].
      apply (Permutation_Forall (insert_desc_perm x l)).
      constructor; [|exact Hy].
      unfold Spec.ge_score. apply Qlt_le_weak. apply Qnot_le_lt.
      intro Hle. apply Qle_bool_iff in Hle. congruence.
Qed.

Lemma sort_desc_sorted (l : list ResumeAnalysis) :
  StronglySorted Spec.ge_score (Batch.sort_desc l).
Proof.
  induction l as [|x l IH]; cbn; [constructor|].
  apply insert_desc_sorted. exact IH.
Qed.

(** Insertion moves a record past records of strictly greater score only,
    so it keeps the order among the records of any one score. *)
Lemma insert_desc_with_score (v : Q) (x : ResumeAnalysis)
    (l : list ResumeAnalysis) :
  Spec.with_score v (Batch.insert_desc x l) = Spec.with_score v (x :: l).
Proof.
  induction l as [|y l IH]; [reflexivity|].
  cbn [Batch.insert_desc].
  destruct (Qle_bool (matching_score y) (matching_score x)) eqn:E;
    [reflexivity|].
  unfold Spec.with_score in *. cbn [filter] in *. rewrite IH.
  destruct (Qeq_bool (matching_score y) v) eqn:Ey; [|reflexivity].
  destruct (Qeq_bool (matching_score x) v) eqn:Ex; [|reflexivity].
  exfalso. apply Qeq_bool_iff in Ey, Ex.
  assert (Hle : matching_score y <= matching_score x)
    by (rewrite Ey, Ex; apply Qle_refl).
  apply Qle_bool_iff in Hle. congruence.
Qed.

Lemma sort_desc_with_score (v : Q) (l : list ResumeAnalysis) :
  Spec.with_score v (Batch.sort_desc l) = Spec.with_score v l.
Proof.
  induction l as [|x l IH]; [reflexivity|].
  cbn [Batch.sort_desc]. rewrite insert_desc_with_score.
  unfold Spec.with_score in *. cbn [filter]. rewrite IH. reflexivity.
Qed.

Lemma failed_analysis_default (response : option AnalysisData)
    (required_skills : list string) :
  response = None
  \/ (exists d, response = Some d /\ d_matching_score d = ScoreInvalid) ->
  analyze_resume response required_skills = default_analysis.
Proof.
  intros [H | [d [H Hd]]]; subst response; unfold analyze_resume; cbn.
  - reflexivity.
  - rewrite Hd. reflexivity.
Qed.

End BatchAnalysis.

(** When every judgment's name is a string or absent, the batch analysis
    returns one record per input resume: its result is a rearrangement of
    the per-resume records and has the length of the input; a resume whose
    analysis fails (the request or the decoding raises, or the score is
    not a number) gets a record with score 0 and empty skill lists; the
    result is sorted by decreasing score, and the records of any one score
    keep their input order. *)
Lemma typed_batch_analysis (resumes : list Batch.Resume)
    (required_skills : list string) :
  let analyses := Batch.batch_analyze_resumes resumes required_skills in
  let records := map (Batch.analyze_one required_skills) resumes in
  List.length analyses = List.length resumes
  /\ Permutation records analyses
  /\ (forall r,
        Batch.response r = None
        \/ (exists d, Batch.response r = Some d
                      /\ Analysis.d_matching_score d = Analysis.ScoreInvalid) ->
        let a := Batch.analyze_one required_skills r in
        Analysis.matching_score a = 0
        /\ Analysis.key_skills a = []
        /\ Analysis.matching_skills a = []
        /\ Analysis.missing_skills a = [])
  /\ StronglySorted
       (fun a b => Analysis.matching_score b <= Analysis.matching_score a)
       analyses
  /\ (forall v,
        filter (fun a => Qeq_bool (Analysis.matching_score a) v) analyses
        = filter (fun a => Qeq_bool (Analysis.matching_score a) v) records).
Proof.
  cbv zeta. unfold Batch.batch_analyze_resumes.
  rewrite analyze_loop_map. cbn [app].
  split; [|split; [|split; [|split]]].
  - rewrite <- (Permutation_length (sort_desc_perm _)). apply length_map.
  - apply sort_desc_perm.
  - intros r Hfail. unfold Batch.analyze_one.
    rewrite (failed_analysis_default _ required_skills Hfail).
    cbn. repeat split; reflexivity.
  - apply sort_desc_sorted.
  - intro v. apply sort_desc_with_score.
Qed.

Example sample_batch_ranking :
  map (fun a => (Analysis.candidate_name a, Qred (Analysis.matching_score a)))
      (Batch.batch_analyze_resumes Examples.sample_batch
         ["Go"; "Rust"]%string)
  = [("Cy Young", 100); ("Di Moss", 100);
     ("Ann Lee", 0); ("Bob Ray", 0)]%string.
Proof. vm_compute. reflexivity. Qed.

(** ** The analysis of one resume chains the two steps *)

Lemma analyze_resume_steps (d : Analysis.AnalysisData) (raw_score : Q)
    (required_skills : list string) :
  Analysis.float_score (Analysis.d_matching_score d) = Some raw_score ->
  let claimed := Analysis.get (Analysis.d_matching_skills d) [] in
  let analysis := Analysis.analyze_resume (Some d) required_skills in
  Analysis.matching_skills analysis
  = fst (Skills.validate claimed required_skills)
  /\ Analysis.matching_score analysis
     = Score.validated_score raw_score
         (snd (Skills.validate claimed required_skills))
         (Skills.has_required required_skills).
Proof.
  intro Hscore. cbv zeta.
  unfold Analysis.analyze_resume, Analysis.analyze_body. rewrite Hscore.
  destruct (Skills.validate _ required_skills) as [validated ratio].
  split; reflexivity.
Qed.

(** Further examples of the specification. *)

Example validate_nothing_claimed :
  Skills.validate [] ["A"; "B"]%string = ([], 0 / 2).
Proof. reflexivity. Qed.

Example validate_nothing_required :
  Skills.validate ["X"]%string [] = (["X"]%string, 0).
Proof. reflexivity. Qed.

Example extract_header_line :
  Names.extract_candidate_name_from_text
    ("PROFESSIONAL SUMMARY" ++ String "010" "Results-driven...")%string
    "resume_008"
  = "resume_008"%string.
Proof. reflexivity. Qed.

Example filename_base_path :
  Names.filename_base "/srv/resumes/jane.doe.v2.pdf" = "jane.doe.v2"%string.
Proof. reflexivity. Qed.

(** ** Further properties of the calibration *)

Ltac score_cases :=
  unfold_score; intros;
  repeat match goal with H : _ /\ _ |- _ => destruct H end;
  cases_cmp; cbn [fst snd andb] in *; min_cases;
  solve [lra | reflexivity | exfalso; lra].

Lemma validated_score_ge_min (raw_score ratio : Q) :
  0.8 <= ratio ->
  Score.min_score ratio <= Score.validated_score raw_score ratio true.
Proof. score_cases. Qed.

Lemma validated_score_very_low (raw_score ratio : Q) :
  ratio < 0.2 -> Score.validated_score raw_score ratio true <= 11.
Proof. score_cases. Qed.

(** A score that already respects what its band enforces is returned as it
    is. *)
Lemma validated_score_fixed (x ratio : Q) :
  ratio < 0.9 ->
  x <= Score.max_allowed_score ratio ->
  (0.8 <= ratio -> Score.min_score ratio <= x) ->
  (ratio < 0.2 -> x <= 11) ->
  Score.validated_score x ratio true == x.
Proof.
  intros Hr Hmax Hmin Hlow.
  destruct (Qlt_le_dec ratio 0.2) as [Hl|Hl];
    [specialize (Hlow Hl) | clear Hlow];
    (destruct (Qlt_le_dec ratio 0.8) as [Hh|Hh];
      [clear Hmin | specialize (Hmin Hh)]);
    revert Hmax; try revert Hmin; try revert Hlow; score_cases.
Qed.

(** X1: for a fixed ratio the calibrated score is non-decreasing in the raw
    score, with or without required skills. *)
Theorem X1_calibration_monotone_in_raw
    (raw_score raw_score' ratio : Q) (has_required : bool)
    (Hle : raw_score <= raw_score') :
  Score.validated_score raw_score ratio has_required
  <= Score.validated_score raw_score' ratio has_required.
Proof.
  destruct has_required; [|exact Hle].
  revert Hle. score_cases.
Qed.

Lemma X1_calibration_monotone_in_raw_witness :
  Score.validated_score 30 0.5 true <= Score.validated_score 70 0.5 true.
Proof.
  apply (X1_calibration_monotone_in_raw 30 70 0.5 true).
  unfold Qle; simpl; lia.
Defined.

(** X2: calibrating a calibrated score again, at the same ratio, does not
    change it. *)
Theorem X2_calibration_idempotent (raw_score ratio : Q)
    (has_required : bool) :
  Score.validated_score
    (Score.validated_score raw_score ratio has_required) ratio has_required
  == Score.validated_score raw_score ratio has_required.
Proof.
  destruct has_required; [|reflexivity].
  destruct (Qlt_le_dec ratio 0.9) as [Hr|Hr].
  - apply validated_score_fixed.
    + exact Hr.
    + apply validated_score_le_max.
    + apply validated_score_ge_min.
    + apply validated_score_very_low.
  - unfold Score.validated_score.
    apply geb_true in Hr. rewrite Hr. reflexivity.
Qed.

(** X3: the calibrated score is not monotone in the ratio: for a raw score
    above 85, a ratio in [0.8, 0.9) gives more than 85 (the raw score capped
    at 90), while the ratio 0.9 gives exactly 85. *)
Theorem X3_calibration_drops_at_outstanding (raw_score ratio : Q)
    (Hratio : 0.8 <= ratio < 0.9) (Hraw : 85 < raw_score) :
  Score.validated_score raw_score 0.9 true == 85
  /\ 85 < Score.validated_score raw_score ratio true
  /\ Score.validated_score raw_score ratio true == Qmin raw_score 90.
Proof.
  split; [vm_compute; reflexivity|].
  revert Hratio Hraw. split; score_cases.
Qed.

Lemma X3_calibration_drops_at_outstanding_witness :
  Score.validated_score 100 0.9 true == 85
  /\ 85 < Score.validated_score 100 0.85 true
  /\ Score.validated_score 100 0.85 true == Qmin 100 90.
Proof.
  apply (X3_calibration_drops_at_outstanding 100 0.85).
  - split; [unfold Qle | unfold Qlt]; simpl; lia.
  - unfold Qlt; simpl; lia.
Defined.

(** ** Further properties of the skill validation *)

Section SkillMatching.

Import Text Notions.
Local Open Scope string_scope.

Ltac by_char c := destruct c as [[] [] [] [] [] [] [] []]; reflexivity.

Lemma lower_char_space (c : ascii) : is_space (lower_char c) = is_space c.
Proof. by_char c. Qed.

Lemma lower_char_idem (c : ascii) : lower_char (lower_char c) = lower_char c.
Proof. by_char c. Qed.

Lemma lower_upper_char (c : ascii) : lower_char (upper_char c) = lower_char c.
Proof. by_char c. Qed.

Lemma map_chars_app (f : ascii -> ascii) (s t : string) :
  map_chars f (s ++ t) = map_chars f s ++ map_chars f t.
Proof. induction s as [|c s IH]; cbn; [reflexivity | now rewrite IH]. Qed.

Lemma lower_upper (s : string) : lower (upper s) = lower s.
Proof.
  unfold lower, upper. induction s as [|c s IH]; cbn; [reflexivity|].
  now rewrite lower_upper_char, IH.
Qed.

Lemma lower_idem (s : string) : lower (lower s) = lower s.
Proof.
  unfold lower. induction s as [|c s IH]; cbn; [reflexivity|].
  now rewrite lower_char_idem, IH.
Qed.

Lemma blank_lower (s : string) : blank (lower s) = blank s.
Proof.
  unfold blank, lower. induction s as [|c s IH]; cbn; [reflexivity|].
  now rewrite lower_char_space, IH.
Qed.

Lemma lstrip_blank (s : string) : blank s = true -> lstrip s = "".
Proof.
  unfold blank. induction s as [|c s IH]; cbn; [reflexivity|].
  intro H. apply andb_prop in H. destruct H as [Hc Hs].
  rewrite Hc. exact (IH Hs).
Qed.

Lemma rstrip_blank (s : string) : blank s = true -> rstrip s = "".
Proof.
  unfold blank. induction s as [|c s IH]; cbn; [reflexivity|].
  intro H. apply andb_prop in H. destruct H as [Hc Hs].
  rewrite (IH Hs), Hc. reflexivity.
Qed.

Lemma strip_blank (s : string) : blank s = true -> strip s = "".
Proof. intro H. unfold strip. now rewrite (lstrip_blank s H). Qed.

Lemma lstrip_app_blank (p s : string) :
  blank p = true -> lstrip (p ++ s) = lstrip s.
Proof.
  unfold blank. induction p as [|c p IH]; cbn; [reflexivity|].
  intro H. apply andb_prop in H. destruct H as [Hc Hp].
  rewrite Hc. exact (IH Hp).
Qed.

Lemma rstrip_app_blank (s p : string) :
  blank p = true -> rstrip (s ++ p) = rstrip s.
Proof.
  intro Hp. induction s as [|c s IH]; cbn.
  - apply rstrip_blank. exact Hp.
  - rewrite IH. reflexivity.
Qed.

Lemma lstrip_app_r (s p : string) :
  blank p = true ->
  lstrip (s ++ p) = if lstrip s =? "" then "" else lstrip s ++ p.
Proof.
  intro Hp. induction s as [|c s IH]; cbn.
  - apply lstrip_blank. exact Hp.
  - destruct (is_space c); [exact IH | reflexivity].
Qed.

Lemma strip_padded (p1 s p2 : string) :
  blank p1 = true -> blank p2 = true -> strip (p1 ++ s ++ p2) = strip s.
Proof.
  intros H1 H2. unfold strip.
  rewrite (lstrip_app_blank p1 _ H1), (lstrip_app_r s p2 H2).
  destruct (lstrip s =? "") eqn:E.
  - apply String.eqb_eq in E. rewrite E. reflexivity.
  - apply rstrip_app_blank. exact H2.
Qed.

(** The normal form compared by the validation is the same for a skill and
    for its upper-cased, blank-padded variant. *)
Lemma normal_form_variant (p1 s p2 : string) :
  blank p1 = true -> blank p2 = true ->
  strip (lower (p1 ++ upper s ++ p2)) = strip (lower s).
Proof.
  intros H1 H2. unfold lower at 1. rewrite !map_chars_app.
  fold (lower p1) (lower (upper s)) (lower p2).
  rewrite lower_upper. apply strip_padded; rewrite blank_lower; assumption.
Qed.

Lemma contains_empty (s : string) : contains "" s = true.
Proof. destruct s; reflexivity. Qed.

Lemma accepted_blank_claimed (required : list string) (skill : string) :
  required <> [] -> blank skill = true ->
  Spec.accepted required skill = true.
Proof.
  intros Hreq Hb. destruct required as [|r rs]; [congruence|].
  unfold Spec.accepted. cbn [existsb].
  rewrite (strip_blank (lower skill)) by (rewrite blank_lower; exact Hb).
  rewrite contains_empty, orb_true_r. reflexivity.
Qed.

Lemma accepted_blank_required (required : list string) (r skill : string) :
  In r required -> blank r = true -> Spec.accepted required skill = true.
Proof.
  intros Hin Hb. unfold Spec.accepted. apply existsb_exists.
  exists r. split; [exact Hin|].
  rewrite (strip_blank (lower r)) by (rewrite blank_lower; exact Hb).
  rewrite contains_empty, orb_true_r. reflexivity.
Qed.

Lemma accepted_itself (required : list string) (skill : string) :
  In skill required -> Spec.accepted required skill = true.
Proof.
  intro Hin. unfold Spec.accepted. apply existsb_exists.
  exists skill. split; [exact Hin|].
  rewrite String.eqb_refl. reflexivity.
Qed.

Lemma filter_all {A} (f : A -> bool) (l : list A) :
  (forall x, In x l -> f x = true) -> filter f l = l.
Proof.
  induction l as [|x l IH]; intro H; cbn; [reflexivity|].
  rewrite (H x (or_introl eq_refl)). f_equal.
  apply IH. intros y Hy. apply H. right. exact Hy.
Qed.

Lemma filter_map_invariant {A} (f : A -> bool) (g : A -> A) (l : list A) :
  (forall x, f (g x) = f x) -> filter f (map g l) = map g (filter f l).
Proof.
  intro H. induction l as [|x l IH]; cbn; [reflexivity|].
  rewrite H. destruct (f x); cbn; now rewrite IH.
Qed.

Lemma existsb_perm {A} (f : A -> bool) (l l' : list A) :
  Permutation l l' -> existsb f l = existsb f l'.
Proof.
  induction 1; cbn.
  - reflexivity.
  - now rewrite IHPermutation.
  - rewrite !orb_assoc, (orb_comm (f y) (f x)). reflexivity.
  - congruence.
Qed.

End SkillMatching.

Lemma existsb_pointwise {A} (f g : A -> bool) (l : list A) :
  (forall x, f x = g x) -> existsb f l = existsb g l.
Proof.
  intro H. induction l as [|x l IH]; cbn; [reflexivity|].
  now rewrite H, IH.
Qed.

Lemma existsb_map {A B} (f : B -> bool) (g : A -> B) (l : list A) :
  existsb f (map g l) = existsb (fun x => f (g x)) l.
Proof. induction l as [|x l IH]; cbn; [reflexivity | now rewrite IH]. Qed.

(** X4: blank strings match everything: with a non-empty required-skill
    list, a claimed skill made of white space only (or empty) is always
    validated; and if some required skill is blank, every claimed skill is
    validated. *)
Theorem X4_blank_skills_match (claimed required : list string)
    (Hreq : required <> []) :
  (forall skill,
     In skill claimed -> Notions.blank skill = true ->
     In skill (fst (Skills.validate claimed required)))
  /\ ((exists r, In r required /\ Notions.blank r = true) ->
      fst (Skills.validate claimed required) = claimed).
Proof.
  rewrite (validate_with_required claimed required Hreq). cbn [fst].
  split.
  - intros skill Hin Hb. apply filter_In. split; [exact Hin|].
    apply accepted_blank_claimed; assumption.
  - intros [r [Hin Hb]]. apply filter_all. intros skill _.
    exact (accepted_blank_required required r skill Hin Hb).
Qed.

Lemma X4_blank_skills_match_witness :
  In "  "%string
     (fst (Skills.validate ["Java"; "  "] ["Python"; "SQL"])%string)
  /\ fst (Skills.validate ["Java"; "Go"] ["Python"; " "])%string
     = ["Java"; "Go"]%string.
Proof.
  split.
  - apply (X4_blank_skills_match ["Java"; "  "]%string
             ["Python"; "SQL"]%string); [discriminate | | reflexivity].
    right. left. reflexivity.
  - apply (X4_blank_skills_match ["Java"; "Go"]%string
             ["Python"; " "]%string); [discriminate|].
    exists " "%string. split; [right; left; reflexivity | reflexivity].
Defined.

(** X5: for skills written in ASCII characters the validation ignores
    letter case and surrounding white space, on both sides: upper-casing
    and padding every claimed skill (all of them ASCII) gives the same
    selection (of the changed skills) and the same ratio; doing so to the
    required skills (all of them ASCII) changes nothing. *)
Theorem X5_matching_ignores_case_and_padding
    (claimed required : list string) (p1 p2 : string)
    (Hp1 : Notions.blank p1 = true) (Hp2 : Notions.blank p2 = true) :
  let variant := fun s => (p1 ++ Text.upper s ++ p2)%string in
  ((forall s, In s claimed -> Notions.is_ascii s = true) ->
   fst (Skills.validate (map variant claimed) required)
   = map variant (fst (Skills.validate claimed required))
   /\ snd (Skills.validate (map variant claimed) required)
      = snd (Skills.validate claimed required))
  /\ ((forall s, In s required -> Notions.is_ascii s = true) ->
      Skills.validate claimed (map variant required)
      = Skills.validate claimed required).
Proof.
  cbv zeta. set (variant := fun s => (p1 ++ Text.upper s ++ p2)%string).
  assert (Hnf : forall s,
            Text.strip (Text.lower (variant s)) = Text.strip (Text.lower s))
    by (intro s; apply normal_form_variant; assumption).
  assert (Hacc : forall req s,
            Spec.accepted req (variant s) = Spec.accepted req s)
    by (intros req s; unfold Spec.accepted; cbv zeta; now rewrite Hnf).
  assert (Hreq' : forall req s,
            Spec.accepted (map variant req) s = Spec.accepted req s).
  { intros req s. unfold Spec.accepted. rewrite existsb_map. cbv zeta.
    apply existsb_pointwise. intro r. now rewrite Hnf. }
  destruct required as [|r rs]; [repeat split; reflexivity|].
  assert (Hne : r :: rs <> []) by discriminate.
  assert (Hne' : map variant (r :: rs) <> []) by discriminate.
  rewrite (validate_with_required _ _ Hne').
  rewrite !(validate_with_required _ _ Hne). cbn [fst snd].
  rewrite (filter_map_invariant _ variant claimed (Hacc (r :: rs))).
  rewrite !length_map.
  rewrite (filter_ext _ _ (Hreq' (r :: rs))).
  repeat split; reflexivity.
Qed.

Lemma X5_matching_ignores_case_and_padding_witness :
  fst (Skills.validate [" PYTHON  "; " RUST  "] ["python 3"; "sql"])%string
  = [" PYTHON  "]%string
  /\ (Skills.validate ["Python"; "Rust"] [" PYTHON 3  "; " SQL  "])%string
     = (Skills.validate ["Python"; "Rust"] ["python 3"; "sql"])%string.
Proof.
  pose proof (X5_matching_ignores_case_and_padding
                ["python"; "rust"]%string ["python 3"; "sql"]%string
                " "%string "  "%string eq_refl eq_refl) as [H1 _].
  pose proof (X5_matching_ignores_case_and_padding
                ["Python"; "Rust"]%string ["python 3"; "sql"]%string
                " "%string "  "%string eq_refl eq_refl) as [_ H2].
  split.
  - apply H1. intros s [<-|[<-|[]]]; reflexivity.
  - apply H2. intros s [<-|[<-|[]]]; reflexivity.
Defined.

(** X6: the order of the required skills does not matter: permuting them
    leaves the validated list and the ratio unchanged. *)
Theorem X6_required_order_irrelevant
    (claimed required required' : list string)
    (Hperm : Permutation required required') :
  Skills.validate claimed required = Skills.validate claimed required'.
Proof.
  destruct required as [|r rs].
  - apply Permutation_nil in Hperm. subst required'. reflexivity.
  - assert (Hne : r :: rs <> []) by discriminate.
    assert (Hne' : required' <> []).
    { intro E. subst required'. apply Permutation_sym in Hperm.
      apply Permutation_nil in Hperm. discriminate. }
    rewrite (validate_with_required _ _ Hne).
    rewrite (validate_with_required _ _ Hne').
    rewrite (Permutation_length Hperm).
    rewrite (filter_ext (Spec.accepted (r :: rs)) (Spec.accepted required'));
      [reflexivity|].
    intro s. unfold Spec.accepted. apply existsb_perm. exact Hperm.
Qed.

Lemma X6_required_order_irrelevant_witness :
  (Skills.validate ["sql"; "go"] ["Go"; "Rust"; "MySQL"])%string
  = (Skills.validate ["sql"; "go"] ["Rust"; "Go"; "MySQL"])%string.
Proof.
  apply X6_required_order_irrelevant. apply perm_swap.
Defined.

(** ** Validation and calibration chained in [analyze_resume] *)

Lemma ratio_of_zero (b : nat) : Skills.ratio_of 0 b == 0.
Proof. unfold Skills.ratio_of, Qdiv. cbn [Z.of_nat]. apply Qmult_0_l. Qed.

Lemma ratio_of_ge_1 (a b : nat) :
  (0 < b)%nat -> (b <= a)%nat -> 1 <= Skills.ratio_of a b.
Proof.
  intros Hb Ha. unfold Skills.ratio_of.
  apply Qle_shift_div_l.
  - change 0 with (inject_Z 0). rewrite <- Zlt_Qlt. lia.
  - rewrite Qmult_1_l. rewrite <- Zle_Qle. lia.
Qed.

Lemma validated_score_zero_ratio (raw_score ratio : Q) :
  ratio == 0 -> Score.validated_score raw_score ratio true == Qmin raw_score 11.
Proof. score_cases. Qed.

Lemma validated_score_full_ratio (raw_score ratio : Q) :
  1 <= ratio -> Score.validated_score raw_score ratio true == 100.
Proof. score_cases. Qed.

(** X7: with a non-empty required-skill list, an analysis that ends up with
    no validated skill scores [min(raw_score, 11)]: at most 11, whatever
    the judgment's raw score. *)
Theorem X7_no_validated_skill_score (d : Analysis.AnalysisData)
    (raw_score : Q) (required : list string)
    (Hreq : required <> [])
    (Hscore :
       Analysis.float_score (Analysis.d_matching_score d) = Some raw_score)
    (Hnone :
       Analysis.matching_skills (Analysis.analyze_resume (Some d) required)
       = []) :
  Analysis.matching_score (Analysis.analyze_resume (Some d) required)
  == Qmin raw_score 11
  /\ Analysis.matching_score (Analysis.analyze_resume (Some d) required)
     <= 11.
Proof.
  destruct (analyze_resume_steps d raw_score required Hscore) as [Hs Hm].
  cbv zeta in Hs, Hm. rewrite Hs in Hnone. rewrite Hm. clear Hs Hm.
  rewrite (validate_with_required _ _ Hreq) in *. cbn [fst snd] in *.
  rewrite Hnone. cbn [List.length].
  destruct required as [|r rs]; [congruence|]. cbn [Skills.has_required].
  split.
  - apply validated_score_zero_ratio. apply ratio_of_zero.
  - rewrite (validated_score_zero_ratio _ _ (ratio_of_zero _)).
    apply Q.le_min_r.
Qed.

Lemma X7_no_validated_skill_score_witness :
  Analysis.matching_score
    (Analysis.analyze_resume
       (Some (Examples.judgment None (Analysis.ScoreNumber 97)
                ["Java"; "Kotlin"]%string))
       ["Go"; "Rust"]%string)
  <= 11.
Proof.
  apply (X7_no_validated_skill_score
           (Examples.judgment None (Analysis.ScoreNumber 97)
              ["Java"; "Kotlin"]%string)
           97 ["Go"; "Rust"]%string);
    [discriminate | reflexivity | reflexivity].
Defined.

(** X8: with a non-empty required-skill list, an analysis with at least as
    many validated skills as there are required skills scores 100, whatever
    the judgment's raw score; this is the case when the judgment claims
    exactly the required skills, which are then all validated. *)
Theorem X8_full_match_scores_100 (d : Analysis.AnalysisData)
    (raw_score : Q) (required : list string)
    (Hreq : required <> [])
    (Hscore :
       Analysis.float_score (Analysis.d_matching_score d) = Some raw_score) :
  let analysis := Analysis.analyze_resume (Some d) required in
  ((List.length required <= List.length (Analysis.matching_skills analysis))%nat
   -> Analysis.matching_score analysis == 100)
  /\ (Analysis.d_matching_skills d = Some required ->
      Analysis.matching_skills analysis = required
      /\ Analysis.matching_score analysis == 100).
Proof.
  cbv zeta.
  destruct (analyze_resume_steps d raw_score required Hscore) as [Hs Hm].
  cbv zeta in Hs, Hm. rewrite Hs, Hm. clear Hs Hm.
  rewrite (validate_with_required _ _ Hreq). cbn [fst snd].
  assert (Hpos : (0 < List.length required)%nat)
    by (destruct required; [congruence | cbn; lia]).
  assert (Hhas : Skills.has_required required = true)
    by (destruct required; [congruence | reflexivity]).
  rewrite Hhas.
  assert (Hfull : forall claimed,
            (List.length required
             <= List.length (filter (Spec.accepted required) claimed))%nat ->
            Score.validated_score raw_score
              (Skills.ratio_of
                 (List.length (filter (Spec.accepted required) claimed))
                 (List.length required)) true == 100).
  { intros claimed Hlen. apply validated_score_full_ratio.
    apply ratio_of_ge_1; assumption. }
  split; [apply Hfull|].
  intro Hclaimed. rewrite Hclaimed. cbn [Analysis.get].
  assert (Hall : filter (Spec.accepted required) required = required)
    by (apply filter_all; intros s Hin; apply accepted_itself; exact Hin).
  split; [exact Hall|].
  apply Hfull. rewrite Hall. apply Nat.le_refl.
Qed.

Lemma X8_full_match_scores_100_witness :
  Analysis.matching_score
    (Analysis.analyze_resume
       (Some (Examples.judgment None (Analysis.ScoreNumber 3)
                ["Go"; "Rust"]%string))
       ["Go"; "Rust"]%string)
  == 100.
Proof.
  pose proof (X8_full_match_scores_100
                (Examples.judgment None (Analysis.ScoreNumber 3)
                   ["Go"; "Rust"]%string)
                3 ["Go"; "Rust"]%string) as H.
  cbv zeta in H. destruct H as [_ H]; [discriminate | reflexivity |].
  apply H. reflexivity.
Defined.

(** X9: when the job description cannot be parsed (the request fails or the
    cleaned answer is not valid JSON), [parse_job_description] returns its
    default dictionary, whose required-skill list is empty; every analysis
    that succeeds then keeps the judgment's raw score and claimed matching
    skills unchanged. *)
Theorem X9_unparsed_job_disables_validation
    (loads : string -> option Reply.JobRequirements)
    (job_answer : option string)
    (d : Analysis.AnalysisData) (raw_score : Q)
    (Hfail : job_answer = None
             \/ exists result,
                  job_answer = Some result
                  /\ loads (Reply.clean_response result) = None)
    (Hscore :
       Analysis.float_score (Analysis.d_matching_score d) = Some raw_score) :
  let job_requirements := Reply.parse_job_description loads job_answer in
  let analysis := Reply.analyze_resume (Some d) job_requirements in
  job_requirements = Reply.default_requirements
  /\ Analysis.matching_score analysis = raw_score
  /\ Analysis.matching_skills analysis
     = Analysis.get (Analysis.d_matching_skills d) [].
Proof.
  cbv zeta.
  assert (Hdef : Reply.parse_job_description loads job_answer
                 = Reply.default_requirements).
  { unfold Reply.parse_job_description.
    destruct Hfail as [H | [result [H Hl]]]; subst job_answer;
      [reflexivity | now rewrite Hl]. }
  rewrite Hdef. split; [reflexivity|].
  unfold Reply.analyze_resume. cbn [Reply.required_skills
    Reply.default_requirements Analysis.get].
  destruct (analyze_resume_steps d raw_score [] Hscore) as [Hs Hm].
  cbv zeta in Hs, Hm. rewrite Hs, Hm. split; reflexivity.
Qed.

Lemma X9_unparsed_job_disables_validation_witness :
  Analysis.matching_score
    (Reply.analyze_resume
       (Some (Examples.judgment None (Analysis.ScoreNumber 250)
                ["Go"]%string))
       (Reply.parse_job_description (fun _ => None) (Some "{}"%string)))
  = 250.
Proof.
  pose proof (X9_unparsed_job_disables_validation
                (fun _ => None) (Some "{}"%string)
                (Examples.judgment None (Analysis.ScoreNumber 250)
                   ["Go"]%string) 250) as H.
  cbv zeta in H. destruct H as [_ [H _]]; [|reflexivity | exact H].
  right. exists "{}"%string. split; reflexivity.
Defined.

(** ** Cleaning of the answers *)

Section Cleaning.

Import Text.
Local Open Scope string_scope.

Lemma substring_all (s : string) : substring 0 (String.length s) s = s.
Proof. induction s as [|c s IH]; cbn; [reflexivity | now rewrite IH]. Qed.

Lemma substring_app_left (s t : string) :
  substring 0 (String.length s) (s ++ t) = s.
Proof.
  induction s as [|c s IH]; cbn; [destruct t; reflexivity | now rewrite IH].
Qed.

Lemma length_app (s t : string) :
  String.length (s ++ t) = (String.length s + String.length t)%nat.
Proof. induction s as [|c s IH]; cbn; [reflexivity | now rewrite IH]. Qed.

Lemma prefix_app (s t : string) : prefix s (s ++ t) = true.
Proof. apply prefix_correct. apply substring_app_left. Qed.

Lemma endswith_app (suf s : string) : Reply.endswith suf (s ++ suf) = true.
Proof.
  induction s as [|c s IH].
  - cbn [append]. destruct suf; cbn [Reply.endswith];
      now rewrite String.eqb_refl.
  - cbn [append Reply.endswith]. rewrite IH. apply orb_true_r.
Qed.

Lemma clean_fenced (s body : string) :
  strip s = "```json" ++ body ++ "```" -> Reply.clean_response s = body.
Proof.
  intro Hs. unfold Reply.clean_response. rewrite Hs.
  unfold Reply.startswith. rewrite prefix_app.
  unfold Reply.drop_first. rewrite length_app.
  replace (String.length "```json" + String.length (body ++ "```") - 7)%nat
    with (String.length (body ++ "```")) by (cbn [String.length]; lia).
  cbn [append substring].
  rewrite substring_all, endswith_app.
  unfold Reply.drop_last. rewrite length_app. cbn [String.length].
  replace (String.length body + 3 - 3)%nat with (String.length body) by lia.
  apply substring_app_left.
Qed.

End Cleaning.

(** X10: an answer wrapped in a json code fence, possibly surrounded by
    white space, is cleaned to exactly the text between the fences, which
    is what the JSON decoder receives in [parse_job_description] and in
    [analyze_resume]; an answer without fences is only stripped. *)
Theorem X10_fenced_answer_unwrapped :
  (forall (answer body : string),
     Text.strip answer = ("```json" ++ body ++ "```")%string ->
     Reply.clean_response answer = body
     /\ (forall loads,
           Reply.decode_analysis loads (Some answer) = loads body)
     /\ (forall loads,
           Reply.parse_job_description loads (Some answer)
           = match loads body with
             | Some requirements => requirements
             | None => Reply.default_requirements
             end))
  /\ (forall answer : string,
        Reply.startswith "```json" (Text.strip answer) = false ->
        Reply.endswith "```" (Text.strip answer) = false ->
        Reply.clean_response answer = Text.strip answer).
Proof.
  split.
  - intros answer body Hs.
    pose proof (clean_fenced answer body Hs) as Hc.
    split; [exact Hc|].
    split; intro loads.
    + unfold Reply.decode_analysis. now rewrite Hc.
    + unfold Reply.parse_job_description. now rewrite Hc.
  - intros answer Hstart Hend. unfold Reply.clean_response.
    rewrite Hstart, Hend. reflexivity.
Qed.

Lemma X10_fenced_answer_unwrapped_witness :
  Reply.clean_response "  ```json{1: [2]}```  " = "{1: [2]}"%string
  /\ Reply.clean_response " [1, 2] " = "[1, 2]"%string.
Proof.
  pose proof X10_fenced_answer_unwrapped as [H1 H2].
  split.
  - apply (H1 "  ```json{1: [2]}```  "%string "{1: [2]}"%string).
    reflexivity.
  - apply (H2 " [1, 2] "%string); reflexivity.
Defined.

(** X11: the temperature sent with a request lies in [0,1] for every
    configured temperature and every jitter, and is the jittered
    temperature itself whenever that lies in [0,1]. *)
Theorem X11_request_temperature_valid (temperature jitter : Q) :
  0 <= Reply.random_temp temperature jitter <= 1
  /\ (0 <= temperature + jitter <= 1 ->
      Reply.random_temp temperature jitter == temperature + jitter).
Proof.
  unfold Reply.random_temp. cbv zeta.
  split; [|intros [H0 H1]]; min_cases; try split; lra.
Qed.

Lemma X11_request_temperature_valid_witness :
  Reply.random_temp 0.1 (-0.03) == 0.1 + -0.03.
Proof.
  apply (X11_request_temperature_valid 0.1 (-0.03)).
  split; unfold Qle; simpl; lia.
Defined.

(** ** Ranking and display *)

(** X12: [normalize_score] returns a score in [0,100] for every input, is
    non-decreasing and idempotent, and leaves a score unchanged exactly
    when it already lies in [0,100]. *)
Theorem X12_normalize_score_clamps (score score' : Q) :
  0 <= Ranker.normalize_score score <= 100
  /\ (score <= score' ->
      Ranker.normalize_score score <= Ranker.normalize_score score')
  /\ Ranker.normalize_score (Ranker.normalize_score score)
     == Ranker.normalize_score score
  /\ (Ranker.normalize_score score == score <-> 0 <= score <= 100).
Proof.
  unfold Ranker.normalize_score.
  split; [|split; [|split; [|split]]].
  - min_cases; split; lra.
  - intro Hle. min_cases; lra.
  - assert (Hb : 0 <= Qmax 0 (Qmin 100 score) <= 100)
      by (min_cases; split; lra).
    destruct Hb as [H0 H100]. revert H0 H100.
    generalize (Qmax 0 (Qmin 100 score)). intros x H0 H100.
    min_cases; lra.
  - min_cases; intro Heq; split; lra.
  - intros [H0 H100]. min_cases; lra.
Qed.

Lemma X12_normalize_score_clamps_witness :
  Ranker.normalize_score (-3) <= Ranker.normalize_score 120.
Proof.
  pose proof (X12_normalize_score_clamps (-3) 120) as [_ [H _]].
  apply H. unfold Qle; simpl; lia.
Defined.

(** X13: [calculate_weighted_score] returns a score in [0,100] whatever
    its four inputs, and is non-decreasing in each of them. *)
Theorem X13_weighted_score_bounded (s e d a s' e' d' a' : Q) :
  0 <= Ranker.calculate_weighted_score s e d a <= 100
  /\ (s <= s' -> e <= e' -> d <= d' -> a <= a' ->
      Ranker.calculate_weighted_score s e d a
      <= Ranker.calculate_weighted_score s' e' d' a').
Proof.
  unfold Ranker.calculate_weighted_score, Ranker.normalize_score. cbv zeta.
  split; [|intros]; min_cases; try split; lra.
Qed.

Lemma X13_weighted_score_bounded_witness :
  Ranker.calculate_weighted_score 10 20 30 40
  <= Ranker.calculate_weighted_score 50 20 300 40.
Proof.
  pose proof (X13_weighted_score_bounded 10 20 30 40 50 20 300 40) as [_ H].
  apply H; unfold Qle; simpl; lia.
Defined.

Section Distribution.

Import Analysis Notions.

(** The four ranges of [display_score_distribution] are the four colours
    of [get_score_color]. *)
Lemma color_ranges (s : Q) :
  Score.geb s 80 = same_color (Ranker.get_score_color s) Ranker.GREEN
  /\ Score.geb s 60 && Score.ltb s 80
     = same_color (Ranker.get_score_color s) Ranker.YELLOW
  /\ Score.geb s 40 && Score.ltb s 60
     = same_color (Ranker.get_score_color s) Ranker.CYAN
  /\ Score.ltb s 40 = same_color (Ranker.get_score_color s) Ranker.RED.
Proof.
  unfold Ranker.get_score_color.
  cases_cmp; cbn; repeat split; try reflexivity; exfalso; lra.
Qed.

Lemma filter_map_length {A B} (f : B -> bool) (g : A -> B) (l : list A) :
  List.length (filter f (map g l))
  = List.length (filter (fun x => f (g x)) l).
Proof.
  induction l as [|x l IH]; cbn; [reflexivity|].
  destruct (f (g x)); cbn; now rewrite IH.
Qed.

Lemma range_count (f : Q -> bool) (c : Ranker.Color)
    (analyses : list ResumeAnalysis) :
  (forall s, f s = same_color (Ranker.get_score_color s) c) ->
  List.length (filter f (map matching_score analyses)) = shown_in c analyses.
Proof.
  intro H. rewrite filter_map_length. unfold shown_in.
  f_equal. apply filter_ext. intro a. apply H.
Qed.

Lemma shown_in_total (analyses : list ResumeAnalysis) :
  (shown_in Ranker.GREEN analyses + shown_in Ranker.YELLOW analyses
   + shown_in Ranker.CYAN analyses + shown_in Ranker.RED analyses)%nat
  = List.length analyses.
Proof.
  unfold shown_in. induction analyses as [|a l IH]; [reflexivity|].
  cbn [filter List.length].
  destruct (Ranker.get_score_color (matching_score a)); cbn; lia.
Qed.

End Distribution.

(** X14: [display_score_distribution] prints nothing for an empty list; for
    a non-empty one its four range counts add up to the number of
    candidates, and they count the candidates shown in green, yellow, cyan
    and red by [get_score_color]. *)
Theorem X14_distribution_counts_partition :
  Ranker.display_score_distribution [] = None
  /\ forall analyses : list Analysis.ResumeAnalysis,
       analyses <> [] ->
       exists dist,
         Ranker.display_score_distribution analyses = Some dist
         /\ (Ranker.excellent dist + Ranker.good dist
             + Ranker.average dist + Ranker.poor dist)%nat
            = List.length analyses
         /\ Ranker.excellent dist = Notions.shown_in Ranker.GREEN analyses
         /\ Ranker.good dist = Notions.shown_in Ranker.YELLOW analyses
         /\ Ranker.average dist = Notions.shown_in Ranker.CYAN analyses
         /\ Ranker.poor dist = Notions.shown_in Ranker.RED analyses.
Proof.
  split; [reflexivity|].
  intros analyses Hne. destruct analyses as [|a l]; [congruence|].
  unfold Ranker.display_score_distribution.
  cbn [map Ranker.max_of Ranker.min_of].
  eexists. split; [reflexivity|]. cbn [Ranker.excellent Ranker.good
    Ranker.average Ranker.poor].
  change (Analysis.matching_score a :: map Analysis.matching_score l)
    with (map Analysis.matching_score (a :: l)).
  rewrite (range_count _ Ranker.GREEN)
    by (intro s; apply (color_ranges s)).
  rewrite (range_count _ Ranker.YELLOW)
    by (intro s; apply (color_ranges s)).
  rewrite (range_count _ Ranker.CYAN)
    by (intro s; apply (color_ranges s)).
  rewrite (range_count _ Ranker.RED)
    by (intro s; apply (color_ranges s)).
  split; [apply shown_in_total|]. repeat split; reflexivity.
Qed.

Lemma X14_distribution_counts_partition_witness :
  exists dist,
    Ranker.display_score_distribution
      (Batch.batch_analyze_resumes Examples.sample_batch
         ["Go"; "Rust"]%string)
    = Some dist
    /\ (Ranker.excellent dist + Ranker.good dist
        + Ranker.average dist + Ranker.poor dist)%nat = 4%nat.
Proof.
  pose proof X14_distribution_counts_partition as [_ H].
  destruct (H (Batch.batch_analyze_resumes Examples.sample_batch
                 ["Go"; "Rust"]%string)) as [dist [Hd [Hsum _]]].
  - vm_compute. discriminate.
  - exists dist. split; [exact Hd | exact Hsum].
Defined.

(** X15: the colour of a calibrated score follows the validated ratio (with
    a non-empty required-skill list): green for a ratio of at least 0.9,
    green or yellow for at least 0.8, never green below 0.6, cyan or red
    below 0.4 and red below 0.2, whatever the raw score. *)
Theorem X15_color_follows_ratio (raw_score ratio : Q) :
  let color :=
    Ranker.get_score_color (Score.validated_score raw_score ratio true) in
  (0.9 <= ratio -> color = Ranker.GREEN)
  /\ (0.8 <= ratio -> color = Ranker.GREEN \/ color = Ranker.YELLOW)
  /\ (ratio < 0.6 -> color <> Ranker.GREEN)
  /\ (ratio < 0.4 -> color = Ranker.CYAN \/ color = Ranker.RED)
  /\ (ratio < 0.2 -> color = Ranker.RED).
Proof.
  cbv zeta.
  assert (Hcolor : forall s,
            (80 <= s -> Ranker.get_score_color s = Ranker.GREEN)
            /\ (60 <= s ->
                Ranker.get_score_color s = Ranker.GREEN
                \/ Ranker.get_score_color s = Ranker.YELLOW)
            /\ (s < 80 -> Ranker.get_score_color s <> Ranker.GREEN)
            /\ (s < 60 ->
                Ranker.get_score_color s = Ranker.CYAN
                \/ Ranker.get_score_color s = Ranker.RED)
            /\ (s < 40 -> Ranker.get_score_color s = Ranker.RED)).
  { intro s. unfold Ranker.get_score_color.
    repeat split; intros; cases_cmp;
      solve [reflexivity | discriminate | left; reflexivity
            | right; reflexivity | exfalso; lra]. }
  destruct (Hcolor (Score.validated_score raw_score ratio true))
    as [H80 [H60 [Hn80 [Hn60 Hn40]]]].
  pose proof (validated_score_le_max raw_score ratio) as Hmax.
  repeat split.
  - intro Hr. apply H80.
    eapply Qle_trans; [|apply (validated_score_ge_min _ _)]; [|lra].
    revert Hr. score_cases.
  - intro Hr. apply H60.
    eapply Qle_trans; [|apply (validated_score_ge_min _ _ Hr)].
    revert Hr. score_cases.
  - intro Hr. apply Hn80.
    eapply Qle_lt_trans; [exact Hmax|]. revert Hr. score_cases.
  - intro Hr. apply Hn60.
    eapply Qle_lt_trans; [exact Hmax|]. revert Hr. score_cases.
  - intro Hr. apply Hn40.
    eapply Qle_lt_trans; [apply (validated_score_very_low _ _ Hr)|].
    reflexivity.
Qed.

Lemma X15_color_follows_ratio_witness :
  Ranker.get_score_color (Score.validated_score 2 0.95 true) = Ranker.GREEN
  /\ Ranker.get_score_color (Score.validated_score 99 0.1 true) = Ranker.RED.
Proof.
  pose proof (X15_color_follows_ratio 2 0.95) as [H1 _].
  pose proof (X15_color_follows_ratio 99 0.1) as [_ [_ [_ [_ H2]]]].
  split.
  - apply H1. unfold Qle; simpl; lia.
  - apply H2. unfold Qlt; simpl; lia.
Defined.

Lemma insert_desc_front (x : Analysis.ResumeAnalysis)
    (l : list Analysis.ResumeAnalysis) :
  Forall (Spec.ge_score x) l -> Batch.insert_desc x l = x :: l.
Proof.
  intro H. destruct l as [|y l]; [reflexivity|].
  cbn [Batch.insert_desc]. apply Forall_inv in H. unfold Spec.ge_score in H.
  apply Qle_bool_iff in H. rewrite H. reflexivity.
Qed.

Lemma sort_desc_of_sorted (l : list Analysis.ResumeAnalysis) :
  StronglySorted Spec.ge_score l -> Batch.sort_desc l = l.
Proof.
  induction 1 as [|x l Hs IH Hx]; [reflexivity|].
  cbn [Batch.sort_desc]. rewrite IH. apply insert_desc_front. exact Hx.
Qed.

(** X16: ranking a list that is already sorted by decreasing score returns
    it unchanged; so [rank_resumes] is idempotent, and in
    [analyze_and_rank] it returns the result of [batch_analyze_resumes] as
    it is. *)
Theorem X16_ranking_sorted_is_identity :
  (forall analyses,
     StronglySorted
       (fun a b => Analysis.matching_score b <= Analysis.matching_score a)
       analyses ->
     Ranker.rank_resumes analyses = analyses)
  /\ (forall analyses,
        Ranker.rank_resumes (Ranker.rank_resumes analyses)
        = Ranker.rank_resumes analyses)
  /\ (forall loads job_answer resumes,
        Shortlister.analyze_and_rank loads job_answer resumes
        = Batch.batch_analyze_resumes resumes
            (Analysis.get
               (Reply.required_skills
                  (Reply.parse_job_description loads job_answer)) [])).
Proof.
  split; [|split].
  - intros analyses Hs. apply sort_desc_of_sorted. exact Hs.
  - intro analyses. unfold Ranker.rank_resumes.
    apply sort_desc_of_sorted. apply sort_desc_sorted.
  - intros loads job_answer resumes.
    unfold Shortlister.analyze_and_rank, Ranker.rank_resumes,
      Batch.batch_analyze_resumes.
    cbv zeta. apply sort_desc_of_sorted. apply sort_desc_sorted.
Qed.

Lemma X16_ranking_sorted_is_identity_witness :
  Ranker.rank_resumes [Analysis.default_analysis; Analysis.default_analysis]
  = [Analysis.default_analysis; Analysis.default_analysis].
Proof.
  pose proof X16_ranking_sorted_is_identity as [H _].
  apply H. repeat constructor; unfold Qle; simpl; lia.
Defined.

Lemma substring_length (n : nat) (s : string) :
  String.length (substring 0 n s) = Nat.min n (String.length s).
Proof.
  revert n. induction s as [|c s IH]; intro n.
  - destruct n; reflexivity.
  - destruct n; [reflexivity|]. cbn. now rewrite IH.
Qed.

Lemma substring_short (n : nat) (s : string) :
  (String.length s <= n)%nat -> substring 0 n s = s.
Proof.
  revert n. induction s as [|c s IH]; intro n.
  - destruct n; reflexivity.
  - destruct n; cbn; [lia|]. intro H. rewrite IH; [reflexivity | lia].
Qed.

(** X17: the cells of the summary table fit their columns: the skills cell
    never exceeds 37 characters and the name cell 29; a name of at most 29
    characters is shown in full, and a skills cell that was shortened is 37
    characters long and ends with three dots. *)
Theorem X17_summary_cells_fit (matching_skills : list string)
    (candidate_name : string) :
  (String.length (Ranker.top_skills matching_skills) <= 37)%nat
  /\ (String.length (Ranker.name_cell candidate_name) <= 29)%nat
  /\ ((String.length candidate_name <= 29)%nat ->
      Ranker.name_cell candidate_name = candidate_name)
  /\ ((37 < String.length
              (Text.join ", " (firstn 3 matching_skills)))%nat ->
      String.length (Ranker.top_skills matching_skills) = 37%nat
      /\ Reply.endswith "..." (Ranker.top_skills matching_skills) = true).
Proof.
  assert (Hcut : forall t,
            (37 < String.length t)%nat ->
            String.length (substring 0 34 t ++ "...")%string = 37%nat).
  { intros t Ht. rewrite length_app, substring_length.
    cbn [String.length]. lia. }
  split; [|split; [|split]].
  - unfold Ranker.top_skills. cbv zeta.
    match goal with |- context [(37 <? String.length ?t)%nat] =>
      destruct (37 <? String.length t)%nat eqn:E end.
    + apply Nat.ltb_lt in E. rewrite (Hcut _ E). apply Nat.le_refl.
    + apply Nat.ltb_ge in E. exact E.
  - unfold Ranker.name_cell. rewrite substring_length. lia.
  - intro H. apply substring_short. exact H.
  - intro H. unfold Ranker.top_skills. cbv zeta.
    destruct matching_skills as [|skill rest];
      [cbn in H; lia|].
    apply Nat.ltb_lt in H. rewrite H.
    apply Nat.ltb_lt in H. split; [apply Hcut; exact H|].
    apply endswith_app.
Qed.

Lemma X17_summary_cells_fit_witness :
  Ranker.name_cell "Jane Doe" = "Jane Doe"%string
  /\ String.length
       (Ranker.top_skills
          ["Kubernetes administration"; "Terraform"; "Go"; "Rust"]%string)
     = 37%nat.
Proof.
  pose proof (X17_summary_cells_fit
                ["Kubernetes administration"; "Terraform"; "Go"; "Rust"]%string
                "Jane Doe"%string) as [_ [_ [H1 H2]]].
  split.
  - apply H1. simpl. lia.
  - apply H2. vm_compute. lia.
Defined.

(** ** Reading documents *)

Section Reading.

Import Text Notions.
Local Open Scope string_scope.

Lemma collect_texts_spec (texts text_content : list string) :
  Parser.collect_texts texts text_content
  = (text_content ++ nonblank_texts texts)%list.
Proof.
  unfold nonblank_texts. revert text_content.
  induction texts as [|t rest IH]; intro acc; cbn.
  - now rewrite app_nil_r.
  - rewrite IH. destruct (strip t =? ""); cbn; [reflexivity|].
    now rewrite <- app_assoc.
Qed.

Lemma nonblank_texts_app (l1 l2 : list string) :
  nonblank_texts (l1 ++ l2) = (nonblank_texts l1 ++ nonblank_texts l2)%list.
Proof. unfold nonblank_texts. now rewrite map_app, filter_app. Qed.

Lemma collect_rows_spec (rows : list (list string))
    (text_content : list string) :
  Parser.collect_rows rows text_content
  = (text_content ++ nonblank_texts (List.concat rows))%list.
Proof.
  revert text_content. induction rows as [|row rest IH]; intro acc;
    cbn [Parser.collect_rows List.concat].
  - unfold nonblank_texts. cbn. now rewrite app_nil_r.
  - rewrite IH, collect_texts_spec, nonblank_texts_app, app_assoc.
    reflexivity.
Qed.

Lemma collect_tables_spec (tables : list (list (list string)))
    (text_content : list string) :
  Parser.collect_tables tables text_content
  = (text_content ++ nonblank_texts (List.concat (List.concat tables)))%list.
Proof.
  revert text_content. induction tables as [|table rest IH]; intro acc;
    cbn [Parser.collect_tables List.concat].
  - unfold nonblank_texts. cbn. now rewrite app_nil_r.
  - rewrite IH, collect_rows_spec, concat_app, nonblank_texts_app, app_assoc.
    reflexivity.
Qed.

Lemma nonblank_texts_blank (texts : list string) :
  (forall t, In t texts -> blank t = true) -> nonblank_texts texts = [].
Proof.
  unfold nonblank_texts. induction texts as [|t rest IH]; intro H; cbn.
  - reflexivity.
  - rewrite (strip_blank t) by (apply H; left; reflexivity). cbn.
    apply IH. intros u Hu. apply H. right. exact Hu.
Qed.

Lemma collect_pages_not_empty (pages : list (option string))
    (text_content : list string) :
  Forall (fun t => t <> "") text_content ->
  Forall (fun t => t <> "") (Parser.collect_pages pages text_content).
Proof.
  revert text_content. induction pages as [|page rest IH]; intros acc Hacc.
  - exact Hacc.
  - cbn [Parser.collect_pages]. apply IH.
    destruct page as [text|]; [|exact Hacc].
    destruct (negb (text =? "") && negb (strip text =? "")) eqn:E;
      [|exact Hacc].
    apply Forall_app. split; [exact Hacc|].
    constructor; [|constructor].
    apply andb_prop in E. destruct E as [_ E].
    apply negb_true_iff in E. apply String.eqb_neq in E. exact E.
Qed.

Lemma joined_pages_not_empty (pages : list (option string)) (t : string)
    (l : list string) :
  Parser.collect_pages pages [] = t :: l ->
  join Parser.newline (t :: l) <> "".
Proof.
  intro H. apply join_not_empty.
  pose proof (collect_pages_not_empty pages [] (Forall_nil _)) as Hall.
  rewrite H in Hall. exact (Forall_inv Hall).
Qed.

Lemma read_pdf_file_not_empty (fs : Parser.Files) (file_path text : string) :
  Parser.read_pdf_file fs file_path = Some text -> text <> "".
Proof.
  unfold Parser.read_pdf_file.
  destruct (Parser.file_exists fs file_path); cbn [negb]; [|discriminate].
  assert (Hfb : forall r,
            match Parser.pypdf2_pages fs file_path with
            | Some pages =>
                match Parser.collect_pages pages [] with
                | [] => None
                | _ :: _ =>
                    Some (join Parser.newline (Parser.collect_pages pages []))
                end
            | None => None
            end = Some r -> r <> "").
  { intros r. destruct (Parser.pypdf2_pages fs file_path) as [pages|];
      [|discriminate].
    destruct (Parser.collect_pages pages []) as [|t l] eqn:E;
      [discriminate|].
    intro H. injection H as <-. exact (joined_pages_not_empty pages t l E). }
  destruct (Parser.pdfplumber_pages fs file_path) as [pages|].
  - destruct (Parser.collect_pages pages []) as [|t l] eqn:E.
    + destruct (Parser.pypdf2_pages fs file_path) as [pages2|];
        [|discriminate].
      specialize (Hfb text).
      destruct (Parser.collect_pages pages2 []) as [|t2 l2] eqn:E2;
        [discriminate | exact Hfb].
    + intro H. injection H as <-. exact (joined_pages_not_empty pages t l E).
  - destruct (Parser.pypdf2_pages fs file_path) as [pages2|];
      [|discriminate].
    specialize (Hfb text).
    destruct (Parser.collect_pages pages2 []) as [|t2 l2] eqn:E2;
      [discriminate | exact Hfb].
Qed.

End Reading.

(** X18: a path that [validate_file] rejects (missing file, or an
    extension other than .docx, .doc, .pdf in any letter case) is never
    read: [read_file], [read_resume] and [read_job_description] return
    [None] for it without calling a reader library. *)
Theorem X18_rejected_file_not_read (fs : Parser.Files) (file_path : string)
    (Hrej : Parser.validate_file fs file_path = false) :
  Parser.read_file fs file_path = None
  /\ Parser.read_resume fs file_path = None
  /\ Parser.read_job_description fs file_path = None
  /\ (forall fs',
        Parser.file_exists fs' = Parser.file_exists fs ->
        Parser.read_file fs' file_path = None).
Proof.
  assert (H : forall fs',
            Parser.file_exists fs' = Parser.file_exists fs ->
            Parser.read_file fs' file_path = None).
  { intros fs' Hex. revert Hrej.
    unfold Parser.validate_file, Parser.read_file. rewrite Hex.
    destruct (Parser.file_exists fs file_path); cbn [negb]; [|reflexivity].
    cbv zeta.
    destruct (Reply.endswith ".docx" (Text.lower file_path));
      [discriminate|].
    destruct (Reply.endswith ".doc" (Text.lower file_path));
      [discriminate|].
    destruct (Reply.endswith ".pdf" (Text.lower file_path));
      [discriminate | reflexivity]. }
  repeat split; try exact (H fs eq_refl). exact H.
Qed.

Lemma X18_rejected_file_not_read_witness :
  Parser.read_file
    {| Parser.file_exists := fun _ => true;
       Parser.open_docx := fun _ => None;
       Parser.pdfplumber_pages := fun _ => Some [Some "text"%string];
       Parser.pypdf2_pages := fun _ => None |}
    "notes.txt"
  = None.
Proof.
  apply X18_rejected_file_not_read. reflexivity.
Defined.

(** X19: [read_pdf_file] never returns an empty text: a PDF in which
    neither library finds text gives [None]; whereas [read_docx_file]
    returns the empty string for a Word file that opens but whose
    paragraphs and table cells are all blank. *)
Theorem X19_empty_text_pdf_vs_docx (fs : Parser.Files) (file_path : string) :
  (forall text,
     Parser.read_pdf_file fs file_path = Some text -> text <> ""%string)
  /\ (forall doc,
        Parser.file_exists fs file_path = true ->
        Parser.is_word_path file_path = true ->
        Parser.open_docx fs file_path = Some doc ->
        (forall t, In t (Parser.paragraphs doc) -> Notions.blank t = true) ->
        (forall t, In t (List.concat (List.concat (Parser.tables doc))) ->
                   Notions.blank t = true) ->
        Parser.read_docx_file fs file_path = Some ""%string).
Proof.
  split; [apply read_pdf_file_not_empty|].
  intros doc Hex Hword Hopen Hpar Htab.
  unfold Parser.read_docx_file. rewrite Hex, Hword, Hopen. cbn [negb].
  cbv zeta. rewrite collect_tables_spec, collect_texts_spec.
  rewrite (nonblank_texts_blank _ Hpar), (nonblank_texts_blank _ Htab).
  reflexivity.
Qed.

Lemma X19_empty_text_pdf_vs_docx_witness :
  Parser.read_docx_file
    {| Parser.file_exists := fun _ => true;
       Parser.open_docx :=
         fun _ => Some {| Parser.paragraphs := [" "; ""]%string;
                          Parser.tables := [[["  "%string]]] |};
       Parser.pdfplumber_pages := fun _ => None;
       Parser.pypdf2_pages := fun _ => None |}
    "cv.DOCX"
  = Some ""%string.
Proof.
  eapply X19_empty_text_pdf_vs_docx; try reflexivity.
  - intros t [<-|[<-|[]]]; reflexivity.
  - intros t [<-|[]]. reflexivity.
Defined.

(** X20: the text read from a Word file is made of the stripped paragraph
    texts followed by the stripped cell texts of all tables (table by
    table, row by row), blank ones dropped, joined by newlines: table text
    always comes after paragraph text. *)
Theorem X20_docx_text_order (fs : Parser.Files) (file_path text : string)
    (Hread : Parser.read_docx_file fs file_path = Some text) :
  exists doc,
    Parser.open_docx fs file_path = Some doc
    /\ text
       = Text.join Parser.newline
           (Notions.nonblank_texts (Parser.paragraphs doc)
            ++ Notions.nonblank_texts
                 (List.concat (List.concat (Parser.tables doc)))).
Proof.
  revert Hread. unfold Parser.read_docx_file.
  destruct (Parser.file_exists fs file_path); cbn [negb]; [|discriminate].
  destruct (Parser.is_word_path file_path); cbn [negb]; [|discriminate].
  destruct (Parser.open_docx fs file_path) as [doc|]; [|discriminate].
  cbv zeta. rewrite collect_tables_spec, collect_texts_spec. cbn [app].
  intro H. injection H as <-. exists doc. split; reflexivity.
Qed.

Lemma X20_docx_text_order_witness :
  exists doc,
    Some {| Parser.paragraphs := [" Jane Doe "; ""; "Engineer"]%string;
            Parser.tables := [[["Go"; " "]; ["Rust "]]]%string |}
    = Some doc
    /\ ("Jane Doe" ++ Parser.newline ++ "Engineer" ++ Parser.newline
        ++ "Go" ++ Parser.newline ++ "Rust")%string
       = Text.join Parser.newline
           (Notions.nonblank_texts (Parser.paragraphs doc)
            ++ Notions.nonblank_texts
                 (List.concat (List.concat (Parser.tables doc)))).
Proof.
  apply (X20_docx_text_order
           {| Parser.file_exists := fun _ => true;
              Parser.open_docx :=
                fun _ =>
                  Some {| Parser.paragraphs :=
                            [" Jane Doe "; ""; "Engineer"]%string;
                          Parser.tables :=
                            [[["Go"; " "]; ["Rust "]]]%string |};
              Parser.pdfplumber_pages := fun _ => None;
              Parser.pypdf2_pages := fun _ => None |}
           "cv.doc"%string).
  reflexivity.
Defined.

(** ** Shape of the extracted and final names *)

Section NameShape.

Import Text Notions.
Local Open Scope string_scope.

Lemma has_char_app (c : ascii) (s t : string) :
  has_char c (s ++ t) = has_char c s || has_char c t.
Proof.
  unfold has_char. induction s as [|d s IH]; cbn; [reflexivity|].
  now rewrite IH, orb_assoc.
Qed.

Lemma contains_char (c : ascii) (s : string) :
  contains (String c "") s = has_char c s.
Proof.
  unfold has_char. induction s as [|d s IH]; [reflexivity|].
  cbn [contains prefix exists_char].
  destruct (ascii_dec c d) as [->|Hne].
  - rewrite Ascii.eqb_refl. destruct s; reflexivity.
  - apply Ascii.eqb_neq in Hne. rewrite Hne. exact IH.
Qed.

Lemma split_at_not_nil (p : ascii -> bool) (s : string) : split_at p s <> [].
Proof.
  destruct s as [|c s]; cbn; [discriminate|].
  destruct (p c); [discriminate|].
  destruct (split_at p s); discriminate.
Qed.

Lemma split_at_chars (p : ascii -> bool) (c : ascii) (s w : string) :
  In w (split_at p s) -> has_char c w = true -> has_char c s = true.
Proof.
  unfold has_char. revert w. induction s as [|d s IH]; intros w Hin Hc.
  - destruct Hin as [<-|[]]. exact Hc.
  - cbn [split_at] in Hin. cbn [exists_char].
    destruct (p d).
    + destruct Hin as [<-|Hin]; [discriminate|].
      rewrite (IH w Hin Hc). apply orb_true_r.
    + destruct (split_at p s) as [|piece pieces] eqn:E.
      * exfalso. exact (split_at_not_nil p s E).
      * destruct Hin as [<-|Hin].
        -- cbn [exists_char] in Hc. apply orb_prop in Hc.
           destruct Hc as [Hc|Hc]; [now rewrite Hc|].
           rewrite (IH piece (or_introl eq_refl) Hc). apply orb_true_r.
        -- rewrite (IH w (or_intror Hin) Hc). apply orb_true_r.
Qed.

Lemma join_chars (c : ascii) (sep : string) (l : list string) :
  has_char c (join sep l) = true ->
  has_char c sep = true \/ exists w, In w l /\ has_char c w = true.
Proof.
  unfold join. induction l as [|w l IH]; cbn [concat].
  - discriminate.
  - destruct l as [|w' l'].
    + intro H. right. exists w. split; [left; reflexivity | exact H].
    + rewrite !has_char_app. intro H.
      apply orb_prop in H. destruct H as [H|H].
      * right. exists w. split; [left; reflexivity | exact H].
      * apply orb_prop in H. destruct H as [H|H]; [left; exact H|].
        destruct (IH H) as [Hs|[u [Hu Hc]]]; [left; exact Hs|].
        right. exists u. split; [right; exact Hu | exact Hc].
Qed.

Lemma firstn_incl {A} (n : nat) (l : list A) (x : A) :
  In x (firstn n l) -> In x l.
Proof.
  revert n. induction l as [|y l IH]; intros n H.
  - destruct n; exact H.
  - destruct n; [destruct H|]. destruct H as [<-|H]; [left; reflexivity|].
    right. exact (IH n H).
Qed.

(** The characters of an extracted name are blanks or characters of the
    stripped line. *)
Lemma name_of_chars (c : ascii) (line : string) :
  has_char c (Spec.name_of line) = true ->
  c = " "%char \/ has_char c (strip line) = true.
Proof.
  unfold Spec.name_of. intro H.
  destruct (join_chars c _ _ H) as [Hs|[w [Hw Hc]]].
  - left. unfold has_char in Hs. cbn in Hs. rewrite orb_false_r in Hs.
    apply Ascii.eqb_eq in Hs. exact Hs.
  - right. apply firstn_incl in Hw. unfold split in Hw.
    apply filter_In in Hw. destruct Hw as [Hw _].
    exact (split_at_chars _ c _ w Hw Hc).
Qed.

Lemma name_of_length (line : string) :
  Spec.qualifies line = true ->
  (3 <= String.length (Spec.name_of line) < 50)%nat.
Proof.
  unfold Spec.qualifies, Spec.name_of. cbv zeta.
  set (ws := split (strip line)). intro H.
  repeat (apply andb_prop in H; destruct H as [H ?]).
  assert (Hne : forall w, In w ws -> w <> "")
    by (intro w; apply split_words_not_empty).
  split.
  - destruct ws as [|w1 [|w2 ws']];
      try match goal with H : (2 <=? _)%nat = true |- _ =>
            cbn in H; discriminate end.
    assert (Hw1 : w1 <> "") by (apply Hne; left; reflexivity).
    assert (Hw2 : join " " (w2 :: firstn 1 ws') <> "").
    { apply join_not_empty. apply Hne. right. left. reflexivity. }
    change (firstn 3 (w1 :: w2 :: ws')) with (w1 :: w2 :: firstn 1 ws').
    unfold join in *.
    change (concat " " (w1 :: w2 :: firstn 1 ws'))
      with (w1 ++ " " ++ concat " " (w2 :: firstn 1 ws')).
    revert Hw2. generalize (concat " " (w2 :: firstn 1 ws')). intros t Ht.
    rewrite !length_app. cbn [String.length].
    destruct w1; [congruence|]. destruct t; [congruence|].
    cbn [String.length]. lia.
  - match goal with H : (String.length _ <? 50)%nat = true |- _ =>
      apply Nat.ltb_lt in H; exact H end.
Qed.

Lemma qualifies_no_separator (line sep : string) :
  Spec.qualifies line = true ->
  In sep [","; ":"; ";"; "|"] ->
  contains sep (strip line) = false.
Proof.
  unfold Spec.qualifies. cbv zeta. intros H Hin.
  apply andb_prop in H. destruct H as [_ H].
  rewrite forallb_forall in H. specialize (H sep Hin).
  apply negb_true_iff in H. exact H.
Qed.

End NameShape.

(** X21: a name taken from the resume text (some line among the first 10
    qualifies) has between 3 and 49 characters, contains no comma, colon,
    semicolon or pipe, and does not depend on the file path. *)
Theorem X21_extracted_name_shape (resume_text file_path line : string)
    (Hfind :
       find Spec.qualifies (firstn 10 (Text.split_sep "010" resume_text))
       = Some line) :
  let name := Names.extract_candidate_name_from_text resume_text file_path in
  (3 <= String.length name < 50)%nat
  /\ (forall sep, In sep Names.separators -> Text.contains sep name = false)
  /\ (forall file_path',
        Names.extract_candidate_name_from_text resume_text file_path'
        = name).
Proof.
  cbv zeta. rewrite !extract_find, Hfind.
  destruct (find_some _ _ Hfind) as [_ Hq].
  split; [exact (name_of_length line Hq)|].
  split; [|intro p; rewrite extract_find, Hfind; reflexivity].
  intros sep Hsep.
  pose proof (qualifies_no_separator line sep Hq Hsep) as Hline.
  assert (Hchar : exists c, sep = String c "" /\ c <> " "%char).
  { unfold Names.separators in Hsep.
    destruct Hsep as [<-|[<-|[<-|[<-|[]]]]]; eexists;
      (split; [reflexivity | discriminate]). }
  destruct Hchar as [c [-> Hc]].
  rewrite contains_char in *.
  destruct (Notions.has_char c (Spec.name_of line)) eqn:E; [|reflexivity].
  destruct (name_of_chars c line E) as [Hb|Hl]; [contradiction|].
  congruence.
Qed.

Lemma X21_extracted_name_shape_witness :
  (3 <= String.length
          (Names.extract_candidate_name_from_text
             ("CURRICULUM VITAE" ++ String "010" "Dr. Jane van Doe")
             "x.pdf")
   < 50)%nat.
Proof.
  apply (X21_extracted_name_shape
           ("CURRICULUM VITAE" ++ String "010" "Dr. Jane van Doe")%string
           "x.pdf"%string "Dr. Jane van Doe"%string).
  reflexivity.
Defined.

(** X22: the name of a batch record is the name extracted from the text,
    the name claimed by the judgment or the file's base name; it is
    non-empty whenever the base name is; it is the placeholder "Unknown
    Candidate", or contains the sentinel, only if the text or the file
    name gave it. *)
Theorem X22_final_name_sources (r : Batch.Resume)
    (required_skills : list string) :
  let name :=
    Analysis.candidate_name (Batch.analyze_one required_skills r) in
  let extracted :=
    Names.extract_candidate_name_from_text
      (Batch.resume_text r) (Batch.file_path r) in
  let claimed :=
    Analysis.candidate_name
      (Analysis.analyze_resume (Batch.response r) required_skills) in
  let fallback := Names.filename_base (Batch.file_path r) in
  (name = extracted \/ name = claimed \/ name = fallback)
  /\ (fallback <> ""%string -> name <> ""%string)
  /\ (name = "Unknown Candidate"%string ->
      extracted = "Unknown Candidate"%string
      \/ fallback = "Unknown Candidate"%string)
  /\ (Text.contains "AVINASH" (Text.upper name) = true ->
      name = extracted \/ name = fallback).
Proof.
  cbv zeta. unfold Batch.analyze_one, Batch.set_candidate_name.
  cbn [Analysis.candidate_name].
  set (extracted := Names.extract_candidate_name_from_text _ _).
  set (claimed := Analysis.candidate_name _).
  set (fallback := Names.filename_base _).
  unfold Batch.final_name.
  destruct (negb (extracted =? "")%string
            && negb (extracted =? fallback)%string) eqn:E1.
  - apply andb_prop in E1. destruct E1 as [E1 _].
    apply negb_true_iff, String.eqb_neq in E1.
    repeat split; auto.
  - destruct (claimed =? "")%string eqn:E2; cbn [negb andb];
      [repeat split; auto|].
    destruct (claimed =? "Unknown Candidate")%string eqn:E3;
      cbn [negb andb]; [repeat split; auto|].
    destruct (2 <? String.length (Text.strip claimed))%nat;
      cbn [andb]; [|repeat split; auto].
    destruct (Text.contains "AVINASH" (Text.upper claimed)) eqn:E4;
      cbn [negb]; [repeat split; auto|].
    apply String.eqb_neq in E2, E3.
    repeat split; auto; intro H; congruence.
Qed.

Lemma X22_final_name_sources_witness :
  Analysis.candidate_name
    (Batch.analyze_one [] (Examples.blank_resume "Avinash K"))
  <> ""%string.
Proof.
  pose proof (X22_final_name_sources
                (Examples.blank_resume "Avinash K") []) as H.
  cbv zeta in H. destruct H as [_ [H _]].
  apply H. vm_compute. discriminate.
Defined.

(** ** The base name of a path *)

Section BaseName.

Import Text Notions.
Local Open Scope string_scope.

Lemma exists_char_app (p : ascii -> bool) (s t : string) :
  exists_char p (s ++ t) = exists_char p s || exists_char p t.
Proof.
  induction s as [|d s IH]; cbn; [reflexivity|].
  now rewrite IH, orb_assoc.
Qed.

Lemma split_at_none (p : ascii -> bool) (s : string) :
  exists_char p s = false -> split_at p s = [s].
Proof.
  induction s as [|c s IH]; cbn; [reflexivity|].
  intro H. apply orb_false_elim in H. destruct H as [Hc Hs].
  rewrite Hc, (IH Hs). reflexivity.
Qed.

Lemma split_at_app (p : ascii -> bool) (d t : string) (c : ascii) :
  p c = true ->
  split_at p (d ++ String c t) = (split_at p d ++ split_at p t)%list.
Proof.
  intro Hc. induction d as [|e d IH]; cbn [append split_at].
  - rewrite Hc. reflexivity.
  - rewrite IH. destruct (p e); [reflexivity|].
    destruct (split_at p d) as [|piece pieces] eqn:E; [|reflexivity].
    exfalso. exact (split_at_not_nil p d E).
Qed.

Lemma basename_plain (name : string) :
  has_char "/" name = false -> basename name = name.
Proof.
  intro H. unfold basename, split_sep.
  rewrite (split_at_none _ name H). reflexivity.
Qed.

Lemma basename_dir (dir name : string) :
  has_char "/" name = false -> basename (dir ++ "/" ++ name) = name.
Proof.
  intro H. unfold basename, split_sep. cbn [append].
  rewrite split_at_app by reflexivity.
  rewrite (split_at_none _ name H). apply last_last.
Qed.

Lemma rfind_from_none (c : ascii) (p : string) (i found : Z) :
  has_char c p = false -> rfind_from c p i found = found.
Proof.
  unfold has_char. revert i found.
  induction p as [|d p IH]; intros i found H; cbn; [reflexivity|].
  cbn in H. apply orb_false_elim in H. destruct H as [Hd Hp].
  rewrite Ascii.eqb_sym, Hd. apply IH. exact Hp.
Qed.

Lemma rfind_from_last (c : ascii) (stem ext : string) (i found : Z) :
  has_char c ext = false ->
  rfind_from c (stem ++ String c ext) i found
  = (i + Z.of_nat (String.length stem))%Z.
Proof.
  intro H. revert i found.
  induction stem as [|d stem IH]; intros i found.
  - cbn [append rfind_from String.length]. rewrite Ascii.eqb_refl.
    rewrite (rfind_from_none c ext _ _ H). cbn. lia.
  - cbn [append rfind_from String.length]. rewrite IH. lia.
Qed.

Lemma splitext_root_ext (stem ext : string) :
  has_char "/" stem = false ->
  exists_char (fun d => negb (Ascii.eqb d ".")) stem = true ->
  has_char "/" ext = false -> has_char "." ext = false ->
  splitext_root (stem ++ "." ++ ext) = stem.
Proof.
  intros Hs Hdot He1 He2. unfold splitext_root, rfind. cbn [append].
  rewrite (rfind_from_last "." stem ext 0 (-1) He2).
  rewrite (rfind_from_none "/").
  2:{ unfold has_char in *. rewrite exists_char_app. cbn [exists_char].
      rewrite Hs, He1. reflexivity. }
  cbv zeta. unfold slice.
  replace (Z.to_nat (-1 + 1)) with 0%nat by reflexivity.
  replace (Z.to_nat (0 + Z.of_nat (String.length stem) - (-1 + 1)))
    with (String.length stem) by lia.
  replace (Z.to_nat (0 + Z.of_nat (String.length stem) - 0))
    with (String.length stem) by lia.
  replace (Z.to_nat 0) with 0%nat by reflexivity.
  rewrite substring_app_left, Hdot.
  replace (-1 <? 0 + Z.of_nat (String.length stem))%Z with true
    by (symmetry; apply Z.ltb_lt; lia).
  reflexivity.
Qed.

Lemma splitext_root_no_dot (stem : string) :
  has_char "." stem = false -> splitext_root stem = stem.
Proof.
  intro H. unfold splitext_root, rfind.
  rewrite (rfind_from_none "." stem _ _ H). cbv zeta.
  destruct (rfind_from "/" stem 0 (-1) <? -1)%Z eqn:E; [|reflexivity].
  exfalso. apply Z.ltb_lt in E.
  assert (Hge : forall p i f, (-1 <= f)%Z -> (0 <= i)%Z ->
                  (-1 <= rfind_from "/" p i f)%Z).
  { induction p as [|d p IH]; intros i f Hf Hi; cbn; [exact Hf|].
    apply IH; [destruct (Ascii.eqb d "/")|]; lia. }
  specialize (Hge stem 0%Z (-1)%Z). lia.
Qed.

End BaseName.

(** X23: the fallback identifier of a file path is the file's stem: for a
    stem without slash that is not made of dots only and an extension
    without dot or slash, [stem.ext] and [dir/stem.ext] both give [stem],
    whatever the directory part; a file name without any dot is returned
    as it is. *)
Theorem X23_filename_base_is_stem (dir stem ext : string)
    (Hstem : Notions.has_char "/" stem = false) :
  (Text.exists_char (fun d => negb (Ascii.eqb d ".")) stem = true ->
   Notions.has_char "/" ext = false -> Notions.has_char "." ext = false ->
   Names.filename_base (stem ++ "." ++ ext) = stem
   /\ Names.filename_base (dir ++ "/" ++ stem ++ "." ++ ext) = stem)
  /\ (Notions.has_char "." stem = false ->
      Names.filename_base stem = stem
      /\ Names.filename_base (dir ++ "/" ++ stem) = stem).
Proof.
  unfold Names.filename_base. split.
  - intros Hdot He1 He2.
    assert (Hname : Notions.has_char "/" (stem ++ "." ++ ext) = false).
    { unfold Notions.has_char in *. rewrite exists_char_app.
      cbn [append Text.exists_char]. rewrite Hstem, He1. reflexivity. }
    rewrite (basename_plain _ Hname), (basename_dir dir _ Hname).
    split; apply splitext_root_ext; assumption.
  - intro Hnodot.
    rewrite (basename_plain _ Hstem), (basename_dir dir _ Hstem).
    split; apply splitext_root_no_dot; assumption.
Qed.

Lemma X23_filename_base_is_stem_witness :
  Names.filename_base "/srv/cv.2024/jane_doe.v2.pdf" = "jane_doe.v2"%string
  /\ Names.filename_base "resumes/README" = "README"%string.
Proof.
  split.
  - apply (X23_filename_base_is_stem "/srv/cv.2024" "jane_doe.v2" "pdf");
      reflexivity.
  - apply (X23_filename_base_is_stem "resumes" "README" "pdf"); reflexivity.
Defined.

(** ** The ranking as a whole *)

Lemma analyze_resume_le_100 (response : option Analysis.AnalysisData)
    (required_skills : list string) :
  required_skills <> [] ->
  Analysis.matching_score (Analysis.analyze_resume response required_skills)
  <= 100.
Proof.
  intro Hreq. unfold Analysis.analyze_resume, Analysis.analyze_body.
  destruct response as [d|]; [|cbn; lra].
  destruct (Analysis.float_score (Analysis.d_matching_score d)) as [raw|];
    [|cbn; lra].
  destruct (Skills.validate _ required_skills) as [validated ratio].
  cbn [Analysis.matching_score].
  destruct required_skills; [congruence|]. cbn [Skills.has_required].
  apply validated_score_le_100.
Qed.

(** X24: when the job has required skills, every record of the ranking has
    a score of at most 100, failed analyses included; and no record has a
    higher score than the first one. *)
Theorem X24_ranking_scores (resumes : list Batch.Resume)
    (required_skills : list string) :
  let analyses := Batch.batch_analyze_resumes resumes required_skills in
  (required_skills <> [] ->
   Forall (fun a => Analysis.matching_score a <= 100) analyses)
  /\ (forall top rest,
        analyses = top :: rest ->
        Forall
          (fun a => Analysis.matching_score a <= Analysis.matching_score top)
          analyses).
Proof.
  cbv zeta. unfold Batch.batch_analyze_resumes.
  rewrite analyze_loop_map. cbn [app]. split.
  - intro Hreq.
    apply (Permutation_Forall (sort_desc_perm _)).
    apply Forall_forall. intros a Ha. apply in_map_iff in Ha.
    destruct Ha as [r [<- _]]. unfold Batch.analyze_one.
    cbn [Batch.set_candidate_name Analysis.matching_score].
    apply analyze_resume_le_100. exact Hreq.
  - intros top rest Heq.
    pose proof (sort_desc_sorted
                  (map (Batch.analyze_one required_skills) resumes)) as Hs.
    rewrite Heq in Hs. apply StronglySorted_inv in Hs.
    destruct Hs as [_ Hs]. rewrite Heq.
    constructor; [apply Qle_refl | exact Hs].
Qed.

Lemma X24_ranking_scores_witness :
  Forall (fun a => Analysis.matching_score a <= 100)
    (Batch.batch_analyze_resumes Examples.sample_batch ["Go"; "Rust"]%string).
Proof.
  pose proof (X24_ranking_scores Examples.sample_batch
                ["Go"; "Rust"]%string) as H.
  cbv zeta in H. destruct H as [H _]. apply H. discriminate.
Defined.

(** X25: a resume whose analysis yields the placeholder name (the analysis
    failed, or the judgment has no name) is listed under the name taken
    from its text, or under its file's base name if the text gives none;
    a failed analysis keeps the score 0 and the error summary. *)
Theorem X25_failed_analysis_named (r : Batch.Resume)
    (required_skills : list string) :
  let record := Batch.analyze_one required_skills r in
  let extracted :=
    Names.extract_candidate_name_from_text
      (Batch.resume_text r) (Batch.file_path r) in
  (Analysis.candidate_name
     (Analysis.analyze_resume (Batch.response r) required_skills)
   = "Unknown Candidate"%string ->
   Analysis.candidate_name record = extracted)
  /\ (Analysis.analyze_body (Batch.response r) required_skills = None ->
      Analysis.candidate_name record = extracted
      /\ Analysis.matching_score record = 0
      /\ Analysis.summary record = "Error occurred during analysis"%string).
Proof.
  cbv zeta.
  assert (Hname :
    Analysis.candidate_name
      (Analysis.analyze_resume (Batch.response r) required_skills)
    = "Unknown Candidate"%string ->
    Analysis.candidate_name (Batch.analyze_one required_skills r)
    = Names.extract_candidate_name_from_text
        (Batch.resume_text r) (Batch.file_path r)).
  { intro Huc. unfold Batch.analyze_one, Batch.set_candidate_name.
    cbn [Analysis.candidate_name]. rewrite Huc. unfold Batch.final_name.
    rewrite String.eqb_refl. cbn [negb andb]. rewrite ?andb_false_r.
    cbn [andb].
    set (extracted := Names.extract_candidate_name_from_text _ _).
    set (fallback := Names.filename_base _).
    destruct (extracted =? fallback)%string eqn:E.
    - rewrite andb_false_r. apply String.eqb_eq in E. congruence.
    - rewrite andb_true_r.
      destruct (extracted =? "")%string eqn:E0; [|reflexivity].
      cbn [negb]. apply String.eqb_eq in E0. rewrite E0.
      apply (extract_empty_is_fallback (Batch.resume_text r)). exact E0. }
  split; [exact Hname|].
  intro Hnone.
  assert (Hdef : Analysis.analyze_resume (Batch.response r) required_skills
                 = Analysis.default_analysis)
    by (unfold Analysis.analyze_resume; now rewrite Hnone).
  split; [apply Hname; now rewrite Hdef|].
  unfold Batch.analyze_one. rewrite Hdef. split; reflexivity.
Qed.

Lemma X25_failed_analysis_named_witness :
  Analysis.candidate_name
    (Batch.analyze_one ["Go"]%string
       (nth 0 Examples.sample_batch (Examples.blank_resume "")))
  = "Ann Lee"%string.
Proof.
  pose proof (X25_failed_analysis_named
                (nth 0 Examples.sample_batch (Examples.blank_resume ""))
                ["Go"]%string) as H.
  cbv zeta in H. destruct H as [_ H].
  destruct H as [H _]; [reflexivity | exact H].
Defined.

(** X26: only the first 10 lines of the text are looked at: for a text of
    at least 10 lines, whatever is appended after a further newline does
    not change the extracted name. *)
Theorem X26_lines_after_tenth_ignored
    (resume_text more file_path : string)
    (Hlines :
       (10 <= List.length (Text.split_sep "010" resume_text))%nat) :
  Names.extract_candidate_name_from_text
    (resume_text ++ String "010" more) file_path
  = Names.extract_candidate_name_from_text resume_text file_path.
Proof.
  unfold Names.extract_candidate_name_from_text, Text.split_sep. cbv zeta.
  rewrite split_at_app by reflexivity.
  rewrite firstn_app.
  replace (10 - List.length (Text.split_at (Ascii.eqb "010") resume_text))%nat
    with 0%nat by (unfold Text.split_sep in Hlines; lia).
  cbn [firstn]. rewrite app_nil_r. reflexivity.
Qed.

Lemma X26_lines_after_tenth_ignored_witness :
  Names.extract_candidate_name_from_text
    (Text.join Parser.newline
       ["1"; "2"; "3"; "4"; "5"; "6"; "7"; "8"; "9"; "10"]
     ++ String "010" "Jane Doe")%string
    "cv7.pdf"
  = "cv7"%string.
Proof.
  rewrite (X26_lines_after_tenth_ignored
             (Text.join Parser.newline
                ["1"; "2"; "3"; "4"; "5"; "6"; "7"; "8"; "9"; "10"]%string)
             "Jane Doe" "cv7.pdf").
  - reflexivity.
  - vm_compute. lia.
Defined.

(** ** The batch analysis when a name is not a string *)

Section WireBatch.

Import Analysis.

Lemma fields_of_typed_data (d : AnalysisData) :
  Wire.fields (Wire.of_typed_data d) = d.
Proof. destruct d as [[name|] ? ? ? ? ? ? ?]; reflexivity. Qed.

Lemma wire_final_name_str (reliable_name name filename_base : string) :
  Wire.final_name reliable_name (Wire.Str name) filename_base
  = Some (Batch.final_name reliable_name name filename_base).
Proof.
  unfold Wire.final_name, Batch.final_name.
  destruct (negb (reliable_name =? "")%string
            && negb (reliable_name =? filename_base)%string);
    [reflexivity|].
  destruct (negb (name =? "")%string
            && negb (name =? "Unknown Candidate")%string
            && (2 <? String.length (Text.strip name))%nat
            && negb (Text.contains "AVINASH" (Text.upper name)));
    reflexivity.
Qed.

(** On judgments whose name is a string or absent, an iteration never
    raises and is the one of [Batch]. *)
Lemma wire_analyze_one_typed (required_skills : list string)
    (r : Batch.Resume) :
  Wire.analyze_one required_skills (Wire.of_typed r)
  = Some (Batch.analyze_one required_skills r).
Proof.
  unfold Wire.analyze_one, Batch.analyze_one, Wire.of_typed.
  cbn [Wire.file_path Wire.resume_text Wire.response]. cbv zeta.
  assert (Hresp : option_map Wire.fields
                    (option_map Wire.of_typed_data (Batch.response r))
                  = Batch.response r).
  { destruct (Batch.response r) as [d|]; [|reflexivity].
    cbn. now rewrite fields_of_typed_data. }
  rewrite Hresp.
  assert (Hname :
    Wire.ai_extracted_name
      (option_map Wire.of_typed_data (Batch.response r)) required_skills
    = Wire.Str (candidate_name
                  (analyze_resume (Batch.response r) required_skills))).
  { unfold Wire.ai_extracted_name, analyze_resume.
    destruct (Batch.response r) as [d|]; [|reflexivity].
    cbn [option_map]. rewrite fields_of_typed_data.
    destruct (analyze_body (Some d) required_skills); [|reflexivity].
    destruct d as [[name|] ? ? ? ? ? ? ?]; reflexivity. }
  rewrite Hname, wire_final_name_str. reflexivity.
Qed.

Lemma wire_analyze_loop_typed (required_skills : list string)
    (resumes : list Batch.Resume) (analyses : list ResumeAnalysis) :
  Wire.analyze_loop required_skills (map Wire.of_typed resumes) analyses
  = Some (Batch.analyze_loop required_skills resumes analyses).
Proof.
  revert analyses. induction resumes as [|r rest IH]; intro analyses.
  - reflexivity.
  - cbn [map Wire.analyze_loop Batch.analyze_loop].
    rewrite wire_analyze_one_typed. apply IH.
Qed.

Lemma wire_batch_typed (resumes : list Batch.Resume)
    (required_skills : list string) :
  Wire.batch_analyze_resumes (map Wire.of_typed resumes) required_skills
  = Some (Batch.batch_analyze_resumes resumes required_skills).
Proof.
  unfold Wire.batch_analyze_resumes, Batch.batch_analyze_resumes.
  rewrite wire_analyze_loop_typed. reflexivity.
Qed.

(** An iteration that raises makes the whole batch raise. *)
Lemma wire_analyze_loop_raises (required_skills : list string)
    (resumes : list Wire.Resume) (r : Wire.Resume)
    (analyses : list ResumeAnalysis) :
  In r resumes -> Wire.analyze_one required_skills r = None ->
  Wire.analyze_loop required_skills resumes analyses = None.
Proof.
  revert analyses. induction resumes as [|r0 rest IH]; intros analyses Hin Hr.
  - destruct Hin.
  - cbn [Wire.analyze_loop].
    destruct (Wire.analyze_one required_skills r0) as [a|] eqn:E;
      [|reflexivity].
    destruct Hin as [->|Hin]; [congruence|].
    apply IH; assumption.
Qed.

(** The iterations that raise: the text gives no name and the judgment,
    whose analysis succeeds, has a name that is not a string and is
    true. *)
Lemma wire_analyze_one_raises (required_skills : list string)
    (r : Wire.Resume) (j : Wire.Judgment) (analysis : ResumeAnalysis) :
  Names.extract_candidate_name_from_text
    (Wire.resume_text r) (Wire.file_path r)
  = Names.filename_base (Wire.file_path r) ->
  Wire.response r = Some j ->
  Wire.w_candidate_name j = Wire.NameOther true ->
  analyze_body (Some (Wire.fields j)) required_skills = Some analysis ->
  Wire.analyze_one required_skills r = None.
Proof.
  intros Hname Hresp Hj Hbody. unfold Wire.analyze_one. cbv zeta.
  unfold Wire.ai_extracted_name. rewrite Hresp, Hbody, Hj, Hname.
  unfold Wire.final_name. rewrite String.eqb_refl, andb_false_r.
  reflexivity.
Qed.

End WireBatch.

(** C7 (code at the failing input): the first resume of [failing_batch]
    alone is analysed and ranked, but the batch of the two raises: the
    judgment of the second has the number 42 as its name and its text
    gives no name, so [ai_extracted_name.strip()] raises outside any
    [try]; no list is returned and the record of the first resume is
    lost. *)
Theorem C7_batch_raises_on_non_string_name :
  (exists record,
     Wire.batch_analyze_resumes (firstn 1 Wire.failing_batch) ["Go"]%string
     = Some [record]
     /\ Analysis.candidate_name record = "Ann Lee"%string)
  /\ Wire.analyze_one ["Go"]%string
       (nth 1 Wire.failing_batch (Wire.of_typed (Examples.blank_resume "")))
     = None
  /\ Wire.batch_analyze_resumes Wire.failing_batch ["Go"]%string = None.
Proof.
  split; [|split].
  - eexists. split; reflexivity.
  - reflexivity.
  - reflexivity.
Qed.
